(** * Todo chat backend: task tools, conversation store and agent loop

    A shallow embedding of [app/agents/tools.py],
    [app/services/conversation.py] and [app/agents/todo_agent.py].

    The database session is a record of tables.  A table is the list of its
    rows in insertion order together with the next value of its primary-key
    sequence.  [datetime.utcnow()] is an input of every operation that reads
    the clock.  A Python exception is a value of type [exn] (its [str(e)]). *)

From Stdlib Require Import ZArith List String Bool Lia Sorted Permutation.
Import ListNotations.

Open Scope string_scope.
Open Scope Z_scope.
Open Scope list_scope.

(** ** Python values *)

(** The dictionaries the tools return, and what [json.dumps] is applied to. *)
Unset Elimination Schemes.
Inductive value : Type :=
| VNone
| VBool (b : bool)
| VInt (z : Z)
| VStr (s : string)
| VList (l : list value)
| VDict (d : list (string * value)).
Set Elimination Schemes.

(** An optional integer as a Python value. *)
Definition of_optional_int (o : option Z) : value :=
  match o with
  | Some z => VInt z
  | None => VNone
  end.

(** [x or default] on an optional string: [None] and [""] are falsy. *)
Definition str_or (x : option string) (default : string) : string :=
  match x with
  | None => default
  | Some s => if String.eqb s "" then default else s
  end.

(** [str(e)] of a raised exception. *)
Definition exn : Type := string.

(** ** The database *)

(** What the code does not fix about the database it talks to.  A key column
    holds the integers of some range: [key_error i] is [None] when it holds
    [i], and else the exception the driver raises when [i] is bound to a
    query on that column or is to be stored in it. *)
Class Database : Type := {
  key_error : Z -> option exn
}.

(** ** Queries *)

(** [Result.scalar_one_or_none()]: the row, [None] without one, and
    [MultipleResultsFound] with more than one. *)
Definition scalar_one_or_none {A : Type} (rows : list A) : exn + option A :=
  match rows with
  | [] => inr None
  | [a] => inr (Some a)
  | _ :: _ :: _ => inl "Multiple rows were found when one or none was required"
  end.

(** [ORDER BY]: a stable insertion sort, rows that compare equal stay in
    table order.  [le a b] says that [a] may come before [b]. *)
Fixpoint insert_by {A : Type} (le : A -> A -> bool) (x : A) (l : list A) : list A :=
  match l with
  | [] => [x]
  | y :: l' => if le x y then x :: l else y :: insert_by le x l'
  end.

Definition order_by {A : Type} (le : A -> A -> bool) (l : list A) : list A :=
  fold_right (insert_by le) [] l.

(** ** Models *)

Module Task.

(** A row of the [tasks] table, with the columns the tools read and write. *)
Record t : Type := mk {
  id : Z;
  user_id : string;
  title : string;
  description : option string;
  completed : bool;
  created_at : Z;
  updated_at : Z
}.

(** An object that has been constructed and not yet inserted: the primary
    key is the one thing missing. *)
Definition transient : Type := Z -> t.

(** Modelled from the spec: the class [Task] of [app/models/task.py] is not
    among the sources.  The data model gives a task a non-empty title and
    [create] "fails with ValidationError if title empty": constructing a
    task with an empty title raises, every other title is accepted.  The
    text of the exception is not fixed by the spec. *)
Definition init (user_id title : string) (description : option string)
    (completed : bool) (created_at updated_at : Z) : exn + transient :=
  if String.eqb title "" then inl "ValidationError"
  else inr (fun id => mk id user_id title description completed created_at updated_at).

Definition set_completed (b : bool) (x : t) : t :=
  mk (id x) (user_id x) (title x) (description x) b (created_at x) (updated_at x).

Definition set_title (s : string) (x : t) : t :=
  mk (id x) (user_id x) s (description x) (completed x) (created_at x) (updated_at x).

Definition set_description (d : option string) (x : t) : t :=
  mk (id x) (user_id x) (title x) d (completed x) (created_at x) (updated_at x).

Definition set_updated_at (now : Z) (x : t) : t :=
  mk (id x) (user_id x) (title x) (description x) (completed x) (created_at x) now.

End Task.

Module Conversation.

Record t : Type := mk {
  id : Z;
  user_id : string;
  created_at : Z;
  updated_at : Z
}.

End Conversation.

Module Message.

Record t : Type := mk {
  id : Z;
  user_id : string;
  conversation_id : Z;
  role : string;
  content : string;
  created_at : Z
}.

End Message.

(** ** The database session *)

Record Session : Type := mkSession {
  tasks : list Task.t;
  tasks_seq : Z;
  conversations : list Conversation.t;
  conversations_seq : Z;
  messages : list Message.t;
  messages_seq : Z
}.

Definition with_tasks (rows : list Task.t) (seq : Z) (s : Session) : Session :=
  mkSession rows seq (conversations s) (conversations_seq s) (messages s) (messages_seq s).

Definition with_conversations (rows : list Conversation.t) (seq : Z) (s : Session) : Session :=
  mkSession (tasks s) (tasks_seq s) rows seq (messages s) (messages_seq s).

Definition with_messages (rows : list Message.t) (seq : Z) (s : Session) : Session :=
  mkSession (tasks s) (tasks_seq s) (conversations s) (conversations_seq s) rows seq.

(** What the primary keys give: no two rows of a table share an id, and the
    sequence is ahead of every id handed out. *)
Definition keys_ok (ids : list Z) (seq : Z) : Prop :=
  NoDup ids /\ Forall (fun i => i < seq) ids.

(** The keys a table holds are keys its column holds. *)
Definition keys_fit {DB : Database} (ids : list Z) : Prop :=
  Forall (fun i => key_error i = None) ids.

(** A session as the code leaves it: the keys of the three tables are in
    order, and the keys of the task and conversation tables, which come back
    as parameters of the queries, are keys their columns hold. *)
Definition wf {DB : Database} (s : Session) : Prop :=
  keys_ok (map Task.id (tasks s)) (tasks_seq s)
  /\ keys_ok (map Conversation.id (conversations s)) (conversations_seq s)
  /\ keys_ok (map Message.id (messages s)) (messages_seq s)
  /\ keys_fit (map Task.id (tasks s))
  /\ keys_fit (map Conversation.id (conversations s)).

Definition empty_session : Session := mkSession [] 1 [] 1 [] 1.

(** ** app/agents/tools.py *)

Module tools.

Section Tools.

Context {DB : Database}.

(** The rows with [Task.id == i] and [Task.user_id == user_id]. *)
Definition matching (session : Session) (i : Z) (user_id : string) : list Task.t :=
  filter (fun x => Z.eqb (Task.id x) i && String.eqb (Task.user_id x) user_id)
         (tasks session).

(** [session.execute(select(Task).where(Task.id == task_id,
    Task.user_id == user_id))].  A [task_id] of [None] compares equal to no
    primary key; an integer the column does not hold cannot be bound, and the
    execution raises. *)
Definition select_task (session : Session) (task_id : option Z) (user_id : string)
    : exn + list Task.t :=
  match task_id with
  | None => inr []
  | Some i =>
      match key_error i with
      | Some e => inl e
      | None => inr (matching session i user_id)
      end
  end.

(** The three lines [complete_task], [delete_task] and [update_task] start
    with: the query, its execution and [scalar_one_or_none()]. *)
Definition one_task (session : Session) (task_id : option Z) (user_id : string)
    : exn + option Task.t :=
  match select_task session task_id user_id with
  | inl e => inl e
  | inr rows => scalar_one_or_none rows
  end.

(** [UPDATE tasks SET ... WHERE id = pk], issued by [commit] for an object
    that was changed. *)
Definition update_row (pk : Z) (f : Task.t -> Task.t) (session : Session) : Session :=
  with_tasks (map (fun x => if Z.eqb (Task.id x) pk then f x else x) (tasks session))
             (tasks_seq session) session.

(** [DELETE FROM tasks WHERE id = pk]. *)
Definition delete_row (pk : Z) (session : Session) : Session :=
  with_tasks (filter (fun x => negb (Z.eqb (Task.id x) pk)) (tasks session))
             (tasks_seq session) session.

(** [session.add(task); commit(); refresh(task)]: the row gets the next key.
    The commit raises when the column does not hold that key, and nothing is
    stored. *)
Definition insert_row (task : Task.transient) (session : Session)
    : exn + Task.t * Session :=
  match key_error (tasks_seq session) with
  | Some e => inl e
  | None =>
      let row := task (tasks_seq session) in
      inr (row, with_tasks (tasks session ++ [row]) (tasks_seq session + 1) session)
  end.

Definition add_task (now1 now2 : Z) (session : Session) (user_id title : string)
    (description : option string) : value * Session :=
  match Task.init user_id title description false now1 now2 with
  | inl e => (VDict [("error", VStr e)], session)
  | inr task =>
      match insert_row task session with
      | inl e => (VDict [("error", VStr e)], session)
      | inr (task, session) =>
          (VDict [("task_id", VInt (Task.id task));
                  ("status", VStr "created");
                  ("title", VStr (Task.title task))], session)
      end
  end.

(** [status == name] on an optional string. *)
Definition is_status (status : option string) (name : string) : bool :=
  match status with
  | Some x => String.eqb x name
  | None => false
  end.

(** The rows [list_tasks] reads, in the order it reads them. *)
Definition query_tasks (session : Session) (user_id : string) (status : option string)
    : list Task.t :=
  let query := filter (fun x => String.eqb (Task.user_id x) user_id) (tasks session) in
  let query :=
    if is_status status "pending" then
      filter (fun x => Bool.eqb (Task.completed x) false) query
    else if is_status status "completed" then
      filter (fun x => Bool.eqb (Task.completed x) true) query
    else query in
  order_by (fun a b => Z.leb (Task.created_at b) (Task.created_at a)) query.

Section ListTasks.

(** [datetime.isoformat()]. *)
Variable isoformat : Z -> string.

Definition task_item (task : Task.t) : value :=
  VDict [("id", VInt (Task.id task));
         ("title", VStr (Task.title task));
         ("description", match Task.description task with
                         | Some d => VStr d
                         | None => VNone
                         end);
         ("completed", VBool (Task.completed task));
         ("created_at", VStr (isoformat (Task.created_at task)))].

Definition list_tasks (session : Session) (user_id : string) (status : option string)
    : value * Session :=
  let task_list := map task_item (query_tasks session user_id status) in
  (VDict [("tasks", VList task_list);
          ("count", VInt (Z.of_nat (List.length task_list)));
          ("status_filter", VStr (str_or status "all"))], session).

End ListTasks.

Definition not_found (task_id : option Z) : value :=
  VDict [("error", VStr "Task not found"); ("task_id", of_optional_int task_id)].

Definition complete_task (now : Z) (session : Session) (user_id : string)
    (task_id : option Z) : value * Session :=
  match one_task session task_id user_id with
  | inl e => (VDict [("error", VStr e)], session)
  | inr None => (not_found task_id, session)
  | inr (Some task) =>
      let change x := Task.set_updated_at now (Task.set_completed true x) in
      (VDict [("task_id", VInt (Task.id task));
              ("status", VStr "completed");
              ("title", VStr (Task.title (change task)))],
       update_row (Task.id task) change session)
  end.

Definition delete_task (session : Session) (user_id : string) (task_id : option Z)
    : value * Session :=
  match one_task session task_id user_id with
  | inl e => (VDict [("error", VStr e)], session)
  | inr None => (not_found task_id, session)
  | inr (Some task) =>
      (VDict [("task_id", of_optional_int task_id);
              ("status", VStr "deleted");
              ("title", VStr (Task.title task))],
       delete_row (Task.id task) session)
  end.

Definition update_task (now : Z) (session : Session) (user_id : string)
    (task_id : option Z) (title description : option string) : value * Session :=
  match one_task session task_id user_id with
  | inl e => (VDict [("error", VStr e)], session)
  | inr None => (not_found task_id, session)
  | inr (Some task) =>
      let change x :=
        let x := match title with Some s => Task.set_title s x | None => x end in
        let x := match description with
                 | Some d => Task.set_description (Some d) x
                 | None => x
                 end in
        Task.set_updated_at now x in
      (VDict [("task_id", VInt (Task.id task));
              ("status", VStr "updated");
              ("title", VStr (Task.title (change task)))],
       update_row (Task.id task) change session)
  end.

End Tools.


End tools.

(** ** Chat transcripts *)

(** A tool call as the model requests it: [tc.id], [tc.function.name] and
    [tc.function.arguments] (a JSON text). *)
Record tool_call : Type := mk_tool_call {
  call_id : string;
  call_name : string;
  call_arguments : string
}.

(** The dictionaries of the [messages] list sent to the model. *)
Inductive chat_message : Type :=
| RoleContent (role content : string)
| AssistantCalls (content : string) (tool_calls : list tool_call)
| ToolOutput (tool_call_id content : string).

(** ** app/services/conversation.py *)

Module ConversationService.

Section Service.

Context {DB : Database}.

(** The commit raises when the column does not hold the next key, and
    nothing is stored. *)
Definition create_conversation (now1 now2 : Z) (session : Session) (user_id : string)
    : exn + Conversation.t * Session :=
  match key_error (conversations_seq session) with
  | Some e => inl e
  | None =>
      let conversation :=
        Conversation.mk (conversations_seq session) user_id now1 now2 in
      inr (conversation,
           with_conversations (conversations session ++ [conversation])
                              (conversations_seq session + 1) session)
  end.

(** An integer the column does not hold cannot be bound, and the execution
    of the query raises. *)
Definition get_conversation (session : Session) (conversation_id : Z) (user_id : string)
    : exn + option Conversation.t :=
  match key_error conversation_id with
  | Some e => inl e
  | None =>
      scalar_one_or_none
        (filter (fun c => Z.eqb (Conversation.id c) conversation_id
                          && String.eqb (Conversation.user_id c) user_id)
                (conversations session))
  end.

(** [if conversation_id:] is false for [None] and for [0].  Nothing here
    catches what [get_conversation] or [create_conversation] raises. *)
Definition get_or_create_conversation (now1 now2 : Z) (session : Session)
    (conversation_id : option Z) (user_id : string) : exn + Conversation.t * Session :=
  let found :=
    match conversation_id with
    | None => inr None
    | Some i => if Z.eqb i 0 then inr None else get_conversation session i user_id
    end in
  match found with
  | inl e => inl e
  | inr (Some conversation) => inr (conversation, session)
  | inr None => create_conversation now1 now2 session user_id
  end.

(** [limit] is a row count. *)
Definition get_messages (session : Session) (conversation_id : Z) (limit : nat)
    : list Message.t :=
  firstn limit
    (order_by (fun a b => Z.leb (Message.created_at a) (Message.created_at b))
       (filter (fun m => Z.eqb (Message.conversation_id m) conversation_id)
               (messages session))).

Definition model_role (role : string) : bool :=
  String.eqb role "user" || String.eqb role "assistant".

Definition get_message_history (session : Session) (conversation_id : Z) (limit : nat)
    : list chat_message :=
  map (fun msg => RoleContent (Message.role msg) (Message.content msg))
      (filter (fun msg => model_role (Message.role msg))
              (get_messages session conversation_id limit)).

Definition add_message (now : Z) (session : Session) (conversation_id : Z)
    (user_id role content : string) : Message.t * Session :=
  let message :=
    Message.mk (messages_seq session) user_id conversation_id role content now in
  (message, with_messages (messages session ++ [message]) (messages_seq session + 1) session).

Definition add_user_message (now : Z) (session : Session) (conversation_id : Z)
    (user_id content : string) : Message.t * Session :=
  add_message now session conversation_id user_id "user" content.

Definition add_assistant_message (now : Z) (session : Session) (conversation_id : Z)
    (user_id content : string) : Message.t * Session :=
  add_message now session conversation_id user_id "assistant" content.

Definition update_conversation_timestamp (now : Z) (session : Session)
    (conversation : Conversation.t) : Session :=
  with_conversations
    (map (fun c => if Z.eqb (Conversation.id c) (Conversation.id conversation)
                   then Conversation.mk (Conversation.id c) (Conversation.user_id c)
                                        (Conversation.created_at c) now
                   else c)
         (conversations session))
    (conversations_seq session) session.

End Service.

End ConversationService.

(** ** app/agents/todo_agent.py *)

Module todo_agent.

(** [response.choices[0].message]. *)
Record assistant_message : Type := mk_assistant_message {
  content : option string;
  tool_calls : option (list tool_call)
}.

(** The parsed argument object, on the keys [_execute_tool] reads: a key is
    absent ([None]) or holds a value of the type its schema declares. *)
Record tool_args : Type := mk_tool_args {
  arg_title : option string;
  arg_description : option string;
  arg_status : option string;
  arg_task_id : option Z
}.

(** [d.get(key, default)]. *)
Definition get_default {A : Type} (x : option A) (default : A) : A :=
  match x with
  | Some a => a
  | None => default
  end.

(** An entry of [tool_calls_made]. *)
Record call_record : Type := mk_call_record {
  tool : string;
  input : tool_args;
  result : value
}.

(** What [process_message] returns. *)
Record reply : Type := mk_reply {
  response : string;
  reply_tool_calls : list call_record;
  error : option string
}.

(** What the loop reads and writes: the database, the number of clock
    readings taken, and the two lists [messages] and [tool_calls_made]. *)
Record state : Type := mk_state {
  session : Session;
  clock : nat;
  messages : list chat_message;
  tool_calls_made : list call_record
}.

Inductive outcome (A : Type) : Type :=
| Ret (a : A)
| Raise (e : exn)
| OutOfFuel.
Arguments Ret {A} a.
Arguments Raise {A} e.
Arguments OutOfFuel {A}.

(** A computation on the state.  The state it leaves is kept when it
    raises: an exception undoes neither a commit nor an append. *)
Definition M (A : Type) : Type := state -> outcome A * state.

Definition ret {A : Type} (a : A) : M A := fun st => (Ret a, st).

Definition bind {A B : Type} (m : M A) (k : A -> M B) : M B :=
  fun st =>
    match m st with
    | (Ret a, st') => k a st'
    | (Raise e, st') => (Raise e, st')
    | (OutOfFuel, st') => (OutOfFuel, st')
    end.

Declare Scope agent_scope.
Delimit Scope agent_scope with agent.
Notation "x <- m ;; k" := (bind m (fun x => k))
  (at level 100, m at next level, right associativity) : agent_scope.
Notation "m ;; k" := (bind m (fun _ => k))
  (at level 100, right associativity) : agent_scope.

Definition lift {A : Type} (r : exn + A) : M A :=
  fun st =>
    match r with
    | inl e => (Raise e, st)
    | inr a => (Ret a, st)
    end.

Definition out_of_fuel {A : Type} : M A := fun st => (OutOfFuel, st).

Definition messages_append (m : chat_message) : M unit :=
  fun st => (Ret tt, mk_state (session st) (clock st) (messages st ++ [m]) (tool_calls_made st)).

Definition tool_calls_made_append (r : call_record) : M unit :=
  fun st => (Ret tt, mk_state (session st) (clock st) (messages st) (tool_calls_made st ++ [r])).

(** [for x in l: f(x)]. *)
Fixpoint for_each {A : Type} (f : A -> M unit) (l : list A) : M unit :=
  match l with
  | [] => ret tt
  | x :: l' => (f x ;; for_each f l')%agent
  end.

(** The truth value of [assistant_message.tool_calls]: the calls to run,
    none for [None] and for the empty list. *)
Definition requested (m : assistant_message) : list tool_call :=
  get_default (tool_calls m) [].

Section Agent.

Context {DB : Database}.

(** The constant text [SYSTEM_PROMPT]. *)
Variable SYSTEM_PROMPT : string.
(** [datetime.isoformat()] and the successive readings of
    [datetime.utcnow()]. *)
Variable isoformat : Z -> string.
Variable utcnow : nat -> Z.
(** [client.chat.completions.create(...)] followed by
    [.choices[0].message], on the transcript sent. *)
Variable chat_completions_create : list chat_message -> exn + assistant_message.
(** [json.loads] and [json.dumps]. *)
Variable json_loads : string -> exn + tool_args.
Variable json_dumps : value -> string.

Definition _execute_tool (now1 now2 : Z) (session : Session) (user_id tool_name : string)
    (tool_args : tool_args) : value * Session :=
  if String.eqb tool_name "add_task" then
    tools.add_task now1 now2 session user_id
      (get_default (arg_title tool_args) "") (arg_description tool_args)
  else if String.eqb tool_name "list_tasks" then
    tools.list_tasks isoformat session user_id
      (Some (get_default (arg_status tool_args) "all"))
  else if String.eqb tool_name "complete_task" then
    tools.complete_task now1 session user_id (arg_task_id tool_args)
  else if String.eqb tool_name "delete_task" then
    tools.delete_task session user_id (arg_task_id tool_args)
  else if String.eqb tool_name "update_task" then
    tools.update_task now1 session user_id (arg_task_id tool_args)
      (arg_title tool_args) (arg_description tool_args)
  else
    (VDict [("error", VStr ("Unknown tool: " ++ tool_name)%string)], session).

(** [_execute_tool] on the state: a tool call has two clock readings at
    its disposal. *)
Definition execute (user_id tool_name : string) (tool_args : tool_args) : M value :=
  fun st =>
    let (result, session') :=
      _execute_tool (utcnow (clock st)) (utcnow (S (clock st)))
                    (session st) user_id tool_name tool_args in
    (Ret result,
     mk_state session' (S (S (clock st))) (messages st) (tool_calls_made st)).

Definition call_model : M assistant_message :=
  fun st => lift (chat_completions_create (messages st)) st.

(** The body of [for tool_call in assistant_message.tool_calls]. *)
Definition run_tool_call (user_id : string) (tool_call : tool_call) : M unit :=
  (let tool_name := call_name tool_call in
   tool_args <- lift (json_loads (call_arguments tool_call)) ;;
   result <- execute user_id tool_name tool_args ;;
   tool_calls_made_append (mk_call_record tool_name tool_args result) ;;
   messages_append (ToolOutput (call_id tool_call) (json_dumps result)))%agent.

(** [while assistant_message.tool_calls: ...], with [fuel] passes at most. *)
Fixpoint while_tool_calls (fuel : nat) (user_id : string)
    (assistant_message : assistant_message) : M todo_agent.assistant_message :=
  match requested assistant_message with
  | [] => ret assistant_message
  | calls =>
      match fuel with
      | O => out_of_fuel
      | S fuel' =>
          (messages_append
             (AssistantCalls (get_default (content assistant_message) "") calls) ;;
           for_each (run_tool_call user_id) calls ;;
           assistant_message <- call_model ;;
           while_tool_calls fuel' user_id assistant_message)%agent
      end
  end.

(** The [try] block of [process_message]. *)
Definition process_body (fuel : nat) (user_id : string) : M assistant_message :=
  (assistant_message <- call_model ;;
   while_tool_calls fuel user_id assistant_message)%agent.

Definition initial_state (session : Session) (clock : nat) (message : string)
    (conversation_history : list chat_message) : state :=
  mk_state session clock
    ([RoleContent "system" SYSTEM_PROMPT] ++ conversation_history
     ++ [RoleContent "user" message])
    [].

(** [process_message]; [None] when [fuel] passes of the loop were not
    enough.  The session and the clock are returned with the reply. *)
Definition process_message (fuel : nat) (session : Session) (clock : nat)
    (user_id message : string) (conversation_history : list chat_message)
    : option (reply * Session * nat) :=
  match process_body fuel user_id
          (initial_state session clock message conversation_history) with
  | (Ret assistant_message, st) =>
      Some (mk_reply (str_or (content assistant_message) "I processed your request.")
                     (tool_calls_made st) None,
            todo_agent.session st, todo_agent.clock st)
  | (Raise e, st) =>
      Some (mk_reply ("I encountered an error: " ++ e ++ ". Please try again.")%string
                     (tool_calls_made st) (Some e),
            todo_agent.session st, todo_agent.clock st)
  | (OutOfFuel, _) => None
  end.

(** Running again, from a session and a clock, the calls a trace records:
    the session and the clock reached, and whether every call returned
    what the trace says. *)
Fixpoint replay (user_id : string) (trace : list call_record) (session : Session)
    (clock : nat) : Session * nat * list value :=
  match trace with
  | [] => (session, clock, [])
  | r :: trace' =>
      let (v, session') :=
        _execute_tool (utcnow clock) (utcnow (S clock)) session user_id
                      (tool r) (input r) in
      let '(session'', clock', vs) := replay user_id trace' session' (S (S clock)) in
      (session'', clock', v :: vs)
  end.

End Agent.

End todo_agent.

(** ** The end of app/agents/todo_agent.py *)

Module agents.

Section RunAgent.

Context {DB : Database}.

Variable SYSTEM_PROMPT : string.
Variable isoformat : Z -> string.
Variable utcnow : nat -> Z.
Variable chat_completions_create
  : list chat_message -> exn + todo_agent.assistant_message.
Variable json_loads : string -> exn + todo_agent.tool_args.
Variable json_dumps : value -> string.

(** [get_agent()] reads the settings and the [.env] file, which are not among
    the sources, and builds the client: [inl e] when that raises. *)
Variable get_agent : exn + unit.

(** [run_agent]: what [get_agent] raises is not caught here; [None] when the
    fuel of the loop was not enough. *)
Definition run_agent (fuel : nat) (session : Session) (clock : nat)
    (user_id message : string) (conversation_history : list chat_message)
    : option (exn + todo_agent.reply * Session * nat) :=
  match get_agent with
  | inl e => Some (inl e)
  | inr _ =>
      match todo_agent.process_message SYSTEM_PROMPT isoformat utcnow
              chat_completions_create json_loads json_dumps
              fuel session clock user_id message conversation_history with
      | Some r => Some (inr r)
      | None => None
      end
  end.

End RunAgent.

End agents.

(** ** app/routes/chat.py *)

Module routes.

Record ChatRequest : Type := mk_ChatRequest {
  request_conversation_id : option Z;
  message : string
}.

(** A [ToolCall] has the fields of an entry of the trace. *)
Record ChatResponse : Type := mk_ChatResponse {
  conversation_id : Z;
  response : string;
  tool_calls : list todo_agent.call_record
}.

(** What a route gives back: its value, or an [HTTPException]. *)
Inductive http (A : Type) : Type :=
| Ok (a : A)
| HTTPException (status_code : Z) (detail : string).
Arguments Ok {A} a.
Arguments HTTPException {A} status_code detail.

Section Routes.

Context {DB : Database}.

Variable SYSTEM_PROMPT : string.
Variable isoformat : Z -> string.
Variable utcnow : nat -> Z.
Variable chat_completions_create
  : list chat_message -> exn + todo_agent.assistant_message.
Variable json_loads : string -> exn + todo_agent.tool_args.
Variable json_dumps : value -> string.
Variable get_agent : exn + unit.

(** The [except Exception] of [chat]. *)
Definition server_error (e : exn) : http ChatResponse :=
  HTTPException 500 ("An error occurred processing your message: " ++ e)%string.

(** [chat], from a session and a clock.  Getting the conversation has two
    clock readings at its disposal, each message it saves has one, and so has
    the timestamp of the conversation.  The session that is left is returned
    with the answer: what was committed before an exception stays. *)
Definition chat (fuel : nat) (session : Session) (clock : nat) (user_id : string)
    (request : ChatRequest) : option (http ChatResponse * Session * nat) :=
  match ConversationService.get_or_create_conversation
          (utcnow clock) (utcnow (S clock)) session
          (request_conversation_id request) user_id with
  | inl e => Some (server_error e, session, S (S clock))
  | inr (conversation, session) =>
      let clock := S (S clock) in
      let history :=
        ConversationService.get_message_history session
          (Conversation.id conversation) 20 in
      let (_, session) :=
        ConversationService.add_user_message (utcnow clock) session
          (Conversation.id conversation) user_id (message request) in
      let clock := S clock in
      match agents.run_agent SYSTEM_PROMPT isoformat utcnow chat_completions_create
              json_loads json_dumps get_agent
              fuel session clock user_id (message request) history with
      | None => None
      | Some (inl e) => Some (server_error e, session, clock)
      | Some (inr (result, session, clock)) =>
          let (_, session) :=
            ConversationService.add_assistant_message (utcnow clock) session
              (Conversation.id conversation) user_id (todo_agent.response result) in
          let session :=
            ConversationService.update_conversation_timestamp (utcnow (S clock))
              session conversation in
          Some (Ok (mk_ChatResponse (Conversation.id conversation)
                      (todo_agent.response result)
                      (todo_agent.reply_tool_calls result)),
                session, S (S clock))
      end
  end.

Definition conversation_item (conv : Conversation.t) : value :=
  VDict [("id", VInt (Conversation.id conv));
         ("created_at", VStr (isoformat (Conversation.created_at conv)));
         ("updated_at", VStr (isoformat (Conversation.updated_at conv)))].

(** The rows [list_conversations] reads, in the order it reads them. *)
Definition query_conversations (session : Session) (user_id : string)
    : list Conversation.t :=
  order_by (fun a b => Z.leb (Conversation.updated_at b) (Conversation.updated_at a))
    (filter (fun c => String.eqb (Conversation.user_id c) user_id)
            (conversations session)).

Definition list_conversations (session : Session) (user_id : string) : list value :=
  map conversation_item (query_conversations session user_id).

Definition message_item (msg : Message.t) : value :=
  VDict [("id", VInt (Message.id msg));
         ("role", VStr (Message.role msg));
         ("content", VStr (Message.content msg));
         ("created_at", VStr (isoformat (Message.created_at msg)))].

(** [get_conversation_messages]; nothing here catches what
    [get_conversation] raises. *)
Definition get_conversation_messages (session : Session) (user_id : string)
    (conversation_id : Z) : exn + http (list value) :=
  match ConversationService.get_conversation session conversation_id user_id with
  | inl e => inl e
  | inr None => inr (HTTPException 404 "Conversation not found")
  | inr (Some _) =>
      inr (Ok (map message_item
                   (ConversationService.get_messages session conversation_id 100)))
  end.

End Routes.

End routes.

(** ** Notions the statements use *)

(** The rows of the task table a user owns, in table order. *)
Definition owned (user_id : string) (s : Session) : list Task.t :=
  filter (fun x => String.eqb (Task.user_id x) user_id) (tasks s).

(** How many of the rows carry the id [i]. *)
Definition occurrences (i : Z) (rows : list Task.t) : nat :=
  List.length (filter (fun x => Z.eqb (Task.id x) i) rows).

(** Whether a row passes the status filter of [list_tasks]. *)
Definition status_matches (status : option string) (x : Task.t) : bool :=
  if tools.is_status status "pending" then negb (Task.completed x)
  else if tools.is_status status "completed" then Task.completed x
  else true.

(** The dictionary a successful [add_task] returns. *)
Definition created (i : Z) (title : string) : value :=
  VDict [("task_id", VInt i); ("status", VStr "created"); ("title", VStr title)].

(** Two runs of one operation of owner [A], from the sessions [s1] and [s2],
    tell [A] the same thing and leave [A] the same rows, and neither has
    touched a row of [B]. *)
Definition same_for (A B : string) (s1 s2 : Session) (r1 r2 : value * Session) : Prop :=
  fst r1 = fst r2
  /\ owned A (snd r1) = owned A (snd r2)
  /\ owned B (snd r1) = owned B s1
  /\ owned B (snd r2) = owned B s2.

(** The dictionaries [complete_task], [delete_task] and [update_task] return
    for a task they found. *)
Definition done (status : string) (i : Z) (title : string) : value :=
  VDict [("task_id", VInt i); ("status", VStr status); ("title", VStr title)].

(** No row carries the id [i], and the sequence has passed it. *)
Definition gone (i : Z) (s : Session) : Prop :=
  (forall y, In y (tasks s) -> Task.id y <> i) /\ i < tasks_seq s.

Definition newest_first (a b : Task.t) : Prop :=
  Task.created_at b <= Task.created_at a.

Definition oldest_first (a b : Message.t) : Prop :=
  Message.created_at a <= Message.created_at b.

(** The messages of a conversation in creation order. *)
Definition in_creation_order (s : Session) (conversation_id : Z) : list Message.t :=
  order_by (fun a b => Z.leb (Message.created_at a) (Message.created_at b))
    (filter (fun m => Z.eqb (Message.conversation_id m) conversation_id) (messages s)).

(** A stored message as [get_message_history] hands it to the model. *)
Definition as_chat (msg : Message.t) : chat_message :=
  RoleContent (Message.role msg) (Message.content msg).

(** The last [n] elements of a list. *)
Definition lastn {A : Type} (n : nat) (l : list A) : list A :=
  skipn (List.length l - n) l.

(** A tool call some user's turn makes, with the clock readings it gets. *)
Record request : Type := mk_request {
  req_user : string;
  req_tool : string;
  req_args : todo_agent.tool_args;
  req_now1 : Z;
  req_now2 : Z
}.

Definition run_request {DB : Database} (isoformat : Z -> string) (r : request)
    (s : Session) : Session :=
  snd (todo_agent._execute_tool isoformat (req_now1 r) (req_now2 r) s
         (req_user r) (req_tool r) (req_args r)).

Definition run_requests {DB : Database} (isoformat : Z -> string) (l : list request)
    (s : Session) : Session :=
  fold_left (fun s r => run_request isoformat r s) l s.



(** The state with one more message on the transcript. *)
Definition said (m : chat_message) (st : todo_agent.state) : todo_agent.state :=
  todo_agent.mk_state (todo_agent.session st) (todo_agent.clock st)
    (todo_agent.messages st ++ [m]) (todo_agent.tool_calls_made st).

(** The text [process_message] answers with after an exception. *)
Definition apology (e : exn) : string :=
  ("I encountered an error: " ++ e ++ ". Please try again.")%string.

(** The trace of a state is the record of what was run: running its calls
    again from the session and the clock of the start of the turn reaches
    the session and the clock of the state, with the recorded results. *)
Definition recorded {DB : Database} (isoformat : Z -> string) (utcnow : nat -> Z)
    (user_id : string)
    (session0 : Session) (clock0 : nat) (st : todo_agent.state) : Prop :=
  todo_agent.replay isoformat utcnow user_id (todo_agent.tool_calls_made st)
                    session0 clock0
  = (todo_agent.session st, todo_agent.clock st,
     map todo_agent.result (todo_agent.tool_calls_made st)).

(** An exception the loop can meet: one the model call raised on some
    transcript, or one [json.loads] raised on some argument text. *)
Definition raised_by
    (chat_completions_create : list chat_message -> exn + todo_agent.assistant_message)
    (json_loads : string -> exn + todo_agent.tool_args) (e : exn) : Prop :=
  (exists transcript, chat_completions_create transcript = inl e)
  \/ (exists text, json_loads text = inl e).

(** A computation keeps [P] and raises within [Q]: from a state with [P] it
    leaves a state with [P], however it ends, and what it raises is in [Q]. *)
Definition keeps {A : Type} (P : todo_agent.state -> Prop) (Q : exn -> Prop)
    (m : todo_agent.M A) : Prop :=
  forall st o st', m st = (o, st') -> P st ->
                   P st' /\ (forall e, o = todo_agent.Raise e -> Q e).

(** [d[key]] on a dictionary value, [VNone] without the key. *)
Fixpoint lookup (key : string) (d : list (string * value)) : value :=
  match d with
  | [] => VNone
  | (k, v) :: d' => if String.eqb k key then v else lookup key d'
  end.

Definition field (key : string) (v : value) : value :=
  match v with
  | VDict d => lookup key d
  | _ => VNone
  end.

(** The list an answer carries under [key], empty when it carries none. *)
Definition items (key : string) (answer : value) : list value :=
  match field key answer with
  | VList l => l
  | _ => []
  end.

(** Whether a dictionary carries the integer [i] under ["id"]. *)
Definition has_id (i : Z) (item : value) : bool :=
  match field "id" item with
  | VInt j => Z.eqb j i
  | _ => false
  end.

(** How many dictionaries of the ["tasks"] of an answer carry the id [i]. *)
Definition listed (i : Z) (answer : value) : nat :=
  List.length (filter (has_id i) (items "tasks" answer)).

(** A dictionary of [list_tasks] shows the row: its id, title, description,
    completion and the text of its creation time. *)
Definition shows_task (isoformat : Z -> string) (row : Task.t) (item : value) : Prop :=
  field "id" item = VInt (Task.id row)
  /\ field "title" item = VStr (Task.title row)
  /\ field "description" item
     = match Task.description row with Some d => VStr d | None => VNone end
  /\ field "completed" item = VBool (Task.completed row)
  /\ field "created_at" item = VStr (isoformat (Task.created_at row)).

(** A dictionary of [list_conversations] shows the row. *)
Definition shows_conversation (isoformat : Z -> string) (row : Conversation.t)
    (item : value) : Prop :=
  field "id" item = VInt (Conversation.id row)
  /\ field "created_at" item = VStr (isoformat (Conversation.created_at row))
  /\ field "updated_at" item = VStr (isoformat (Conversation.updated_at row)).

(** A dictionary of [get_conversation_messages] shows the row. *)
Definition shows_message (isoformat : Z -> string) (row : Message.t) (item : value)
    : Prop :=
  field "id" item = VInt (Message.id row)
  /\ field "role" item = VStr (Message.role row)
  /\ field "content" item = VStr (Message.content row)
  /\ field "created_at" item = VStr (isoformat (Message.created_at row)).

(** The rows of the conversation table a user owns, in table order. *)
Definition owned_conversations (user_id : string) (s : Session) : list Conversation.t :=
  filter (fun c => String.eqb (Conversation.user_id c) user_id) (conversations s).

Definition latest_first (a b : Conversation.t) : Prop :=
  Conversation.updated_at b <= Conversation.updated_at a.

(** The tool outputs on a transcript, in its order: the id of the call and
    the text. *)
Fixpoint tool_outputs (transcript : list chat_message) : list (string * string) :=
  match transcript with
  | [] => []
  | ToolOutput i c :: rest => (i, c) :: tool_outputs rest
  | _ :: rest => tool_outputs rest
  end.

(** The transcript [process_message] starts from. *)
Definition opening_transcript (SYSTEM_PROMPT message : string)
    (conversation_history : list chat_message) : list chat_message :=
  [RoleContent "system" SYSTEM_PROMPT] ++ conversation_history
  ++ [RoleContent "user" message].


(** What a turn of the agent leaves alone: the conversation and message
    tables, and the task rows of the user [B]. *)
Definition untouched (B : string) (s s' : Session) : Prop :=
  owned B s' = owned B s
  /\ conversations s' = conversations s
  /\ conversations_seq s' = conversations_seq s
  /\ messages s' = messages s
  /\ messages_seq s' = messages_seq s.

(** The other tables, and the sequence of the task table, which does not go
    back. *)
Definition tables_kept (s s' : Session) : Prop :=
  conversations s' = conversations s
  /\ conversations_seq s' = conversations_seq s
  /\ messages s' = messages s
  /\ messages_seq s' = messages_seq s
  /\ tasks_seq s <= tasks_seq s'.

(** ** Sample data *)

Module Sample.

(** A database whose key columns hold the 64-bit signed integers. *)
#[global] Instance int64_keys : Database := {|
  key_error i :=
    if Z.leb (- 2 ^ 63) i && Z.ltb i (2 ^ 63) then None
    else Some "Python int too large to convert to SQLite INTEGER"
|}.

Definition isoformat (z : Z) : string := "t".

Definition no_args : todo_agent.tool_args :=
  todo_agent.mk_tool_args None None None None.

Definition milk : Task.t := Task.mk 1 "alice" "buy milk" None false 10 10.
Definition eggs : Task.t := Task.mk 2 "alice" "buy eggs" (Some "a dozen") false 20 20.
Definition rent : Task.t := Task.mk 3 "bob" "pay rent" None false 15 15.

(** Alice owns tasks 1 and 2, Bob owns task 3. *)
Definition shared : Session := mkSession [milk; eggs; rent] 4 [] 1 [] 1.

(** What other turns may do in between: Alice adds a task, Bob tries to
    complete task 1, and the model asks for a tool that does not exist. *)
Definition interleaved : list request :=
  [mk_request "alice" "add_task"
     (todo_agent.mk_tool_args (Some "call mom") None None None) 50 50;
   mk_request "bob" "complete_task"
     (todo_agent.mk_tool_args None None None (Some 1)) 60 60;
   mk_request "alice" "undo" no_args 70 70].

(** The same without Bob's task. *)
Definition alone : Session := mkSession [milk; eggs] 4 [] 1 [] 1.

Definition m1 : Message.t := Message.mk 1 "alice" 1 "user" "first" 1.
Definition m2 : Message.t := Message.mk 2 "alice" 1 "assistant" "second" 2.
Definition m3 : Message.t := Message.mk 3 "alice" 1 "user" "third" 3.

(** One conversation of Alice's with three messages. *)
Definition talk : Session :=
  mkSession [] 1 [Conversation.mk 1 "alice" 1 3] 2 [m1; m2; m3] 4.

(** A model that asks for one [add_task] when it sees the opening
    transcript, and cannot be reached after that. *)
Definition add_call : tool_call := mk_tool_call "call_1" "add_task" "{}".

Definition add_then_fail (transcript : list chat_message)
    : exn + todo_agent.assistant_message :=
  match transcript with
  | [_; _] => inr (todo_agent.mk_assistant_message None (Some [add_call]))
  | _ => inl "rate limit exceeded"
  end.

(** A model that asks for a tool nobody registered, and then answers. *)
Definition undo_call : tool_call := mk_tool_call "call_1" "undo" "{}".

Definition undo_then_answer (transcript : list chat_message)
    : exn + todo_agent.assistant_message :=
  match transcript with
  | [_; _] => inr (todo_agent.mk_assistant_message None (Some [undo_call]))
  | _ => inr (todo_agent.mk_assistant_message (Some "I cannot undo that.") None)
  end.



Definition utcnow (n : nat) : Z := Z.of_nat n.

Definition json_loads (text : string) : exn + todo_agent.tool_args :=
  inr (todo_agent.mk_tool_args (Some "buy milk") None None None).

Definition json_dumps (v : value) : string := "{...}".

Definition opening : todo_agent.state :=
  todo_agent.initial_state "You are a helpful todo assistant." empty_session 0
    "Add a task to buy milk" [].


(** A model that can never be reached. *)
Definition unreachable (transcript : list chat_message)
    : exn + todo_agent.assistant_message :=
  inl "connection refused".

(** A model that answers at once, with an empty text. *)
Definition silent (transcript : list chat_message)
    : exn + todo_agent.assistant_message :=
  inr (todo_agent.mk_assistant_message (Some "") None).




(** A model that asks for [add_task] and then answers. *)
Definition add_then_answer (transcript : list chat_message)
    : exn + todo_agent.assistant_message :=
  match transcript with
  | [_; _] => inr (todo_agent.mk_assistant_message None (Some [add_call]))
  | _ => inr (todo_agent.mk_assistant_message (Some "Added.") None)
  end.

Definition hello : routes.ChatRequest := routes.mk_ChatRequest None "Add a task to buy milk".


(** What the first turn of Alice answers and leaves, with the model that adds
    a task and then answers. *)
Definition first_answer : routes.ChatResponse :=
  routes.mk_ChatResponse 1 "Added."
    [todo_agent.mk_call_record "add_task"
       (todo_agent.mk_tool_args (Some "buy milk") None None None)
       (created 1 "buy milk")].

Definition after_first_turn : Session :=
  mkSession [Task.mk 1 "alice" "buy milk" None false 3 4] 2
            [Conversation.mk 1 "alice" 0 6] 2
            [Message.mk 1 "alice" 1 "user" "Add a task to buy milk" 2;
             Message.mk 2 "alice" 1 "assistant" "Added." 5] 3.

End Sample.

(** * Properties *)

(** ** Ordering *)

Section OrderBy.

Context {A : Type} (le : A -> A -> bool).

Lemma insert_by_perm (x : A) (l : list A) :
  Permutation (insert_by le x l) (x :: l).
Proof.
  induction l as [|y l IH]; simpl.
  - apply Permutation_refl.
  - destruct (le x y).
    + apply Permutation_refl.
    + apply perm_trans with (y :: x :: l).
      * apply perm_skip, IH.
      * apply perm_swap.
Qed.

Lemma order_by_perm (l : list A) : Permutation (order_by le l) l.
Proof.
  induction l as [|x l IH]; simpl.
  - apply perm_nil.
  - apply perm_trans with (x :: order_by le l).
    + apply insert_by_perm.
    + apply perm_skip, IH.
Qed.

Lemma order_by_In (x : A) (l : list A) : In x (order_by le l) <-> In x l.
Proof.
  split; apply Permutation_in.
  - apply order_by_perm.
  - apply Permutation_sym, order_by_perm.
Qed.

Lemma filter_insert_by_length (f : A -> bool) (x : A) (l : list A) :
  List.length (filter f (insert_by le x l)) = List.length (filter f (x :: l)).
Proof.
  induction l as [|y l IH]; simpl.
  - reflexivity.
  - destruct (le x y); simpl.
    + reflexivity.
    + simpl in IH. destruct (f y), (f x); simpl in *; lia.
Qed.

Lemma filter_order_by_length (f : A -> bool) (l : list A) :
  List.length (filter f (order_by le l)) = List.length (filter f l).
Proof.
  induction l as [|x l IH]; simpl.
  - reflexivity.
  - rewrite filter_insert_by_length. simpl.
    destruct (f x); simpl; lia.
Qed.

Hypothesis le_total : forall a b, le a b = false -> le b a = true.
Hypothesis le_trans : forall a b c, le a b = true -> le b c = true -> le a c = true.

Let R (a b : A) : Prop := le a b = true.

Lemma insert_by_sorted (x : A) (l : list A) :
  StronglySorted R l -> StronglySorted R (insert_by le x l).
Proof.
  induction 1 as [|y l Hl IH Hy]; simpl.
  - constructor; constructor.
  - destruct (le x y) eqn:E.
    + constructor.
      * constructor; assumption.
      * constructor; [exact E|].
        eapply Forall_impl; [|exact Hy].
        intros z Hz. exact (le_trans _ _ _ E Hz).
    + constructor; [exact IH|].
      apply (Permutation_Forall (Permutation_sym (insert_by_perm x l))).
      constructor; [exact (le_total _ _ E)|exact Hy].
Qed.

Lemma order_by_sorted (l : list A) : StronglySorted R (order_by le l).
Proof.
  induction l as [|x l IH]; simpl.
  - constructor.
  - apply insert_by_sorted, IH.
Qed.

End OrderBy.

Lemma StronglySorted_weaken {A : Type} (R S : A -> A -> Prop) (l : list A) :
  (forall a b, R a b -> S a b) -> StronglySorted R l -> StronglySorted S l.
Proof.
  intros HRS. induction 1 as [|a l Hl IH Ha].
  - constructor.
  - constructor; [exact IH|].
    eapply Forall_impl; [|exact Ha]. intros b. apply HRS.
Qed.

Lemma order_by_newest_first (rows : list Task.t) :
  StronglySorted newest_first
    (order_by (fun a b => Z.leb (Task.created_at b) (Task.created_at a)) rows).
Proof.
  eapply StronglySorted_weaken.
  2: { apply order_by_sorted.
       - intros a b H. apply Z.leb_gt in H. apply Z.leb_le. lia.
       - intros a b c H1 H2. apply Z.leb_le in H1, H2. apply Z.leb_le. lia. }
  intros a b H. apply Z.leb_le in H. exact H.
Qed.

(** ** Filters and keys *)

Section Filters.

Context {A : Type}.

Lemma filter_andb (f g : A -> bool) (l : list A) :
  filter (fun x => f x && g x) l = filter g (filter f l).
Proof.
  induction l as [|x l IH]; simpl.
  - reflexivity.
  - destruct (f x); simpl; [destruct (g x)|]; rewrite IH; reflexivity.
Qed.

Lemma filter_comm (f g : A -> bool) (l : list A) :
  filter f (filter g l) = filter g (filter f l).
Proof.
  rewrite <- !filter_andb. apply filter_ext. intros x. apply andb_comm.
Qed.

Lemma filter_none (f : A -> bool) (l : list A) :
  (forall x, In x l -> f x = false) -> filter f l = [].
Proof.
  induction l as [|x l IH]; simpl; intros H.
  - reflexivity.
  - rewrite (H x (or_introl eq_refl)). apply IH. intros y Hy. apply H. right. exact Hy.
Qed.

Lemma filter_all (f : A -> bool) (l : list A) :
  (forall x, In x l -> f x = true) -> filter f l = l.
Proof.
  induction l as [|x l IH]; simpl; intros H.
  - reflexivity.
  - rewrite (H x (or_introl eq_refl)). f_equal. apply IH. intros y Hy. apply H. right. exact Hy.
Qed.

Variable key : A -> Z.

(** With distinct primary keys, a key selects its row and nothing else. *)
Lemma filter_key_unique (l : list A) (x : A) :
  NoDup (map key l) -> In x l ->
  filter (fun y => Z.eqb (key y) (key x)) l = [x].
Proof.
  induction l as [|y l IH]; simpl; intros Hnd Hin.
  - contradiction.
  - inversion Hnd as [|? ? Hy Hl]; subst.
    destruct Hin as [->|Hin].
    + rewrite Z.eqb_refl. f_equal. apply filter_none.
      intros z Hz. apply Z.eqb_neq. intros E. apply Hy. rewrite <- E.
      apply in_map. exact Hz.
    + assert (key y <> key x) as Hne.
      { intros E. apply Hy. rewrite E. apply in_map. exact Hin. }
      apply Z.eqb_neq in Hne. rewrite Hne. apply IH; assumption.
Qed.

Lemma key_injective (l : list A) (x y : A) :
  NoDup (map key l) -> In x l -> In y l -> key y = key x -> y = x.
Proof.
  intros Hnd Hx Hy E.
  assert (In y (filter (fun z => Z.eqb (key z) (key x)) l)) as H.
  { apply filter_In. split; [exact Hy|apply Z.eqb_eq, E]. }
  rewrite filter_key_unique in H by assumption.
  destruct H as [H|[]]. symmetry. exact H.
Qed.

Lemma keys_ok_filter (f : A -> bool) (l : list A) (seq : Z) :
  keys_ok (map key l) seq -> keys_ok (map key (filter f l)) seq.
Proof.
  intros [Hnd Hlt]. induction l as [|x l IH]; simpl in *.
  - split; assumption.
  - inversion Hnd as [|? ? Hx Hl]; inversion Hlt as [|? ? Hx' Hl']; subst.
    destruct (IH Hl Hl') as [IH1 IH2].
    destruct (f x); simpl; [|split; assumption].
    split; constructor; try assumption.
    intros Hin. apply Hx. apply in_map_iff in Hin. destruct Hin as (y & Hy & Hin).
    apply filter_In in Hin. rewrite <- Hy. apply in_map. tauto.
Qed.

End Filters.

Lemma keys_ok_snoc (ids : list Z) (seq : Z) :
  keys_ok ids seq -> keys_ok (ids ++ [seq]) (seq + 1).
Proof.
  intros [Hnd Hlt]. split.
  - apply NoDup_app; [exact Hnd|repeat constructor; auto|].
    intros x Hx [<-|[]]. rewrite Forall_forall in Hlt. specialize (Hlt _ Hx). lia.
  - apply Forall_app. split.
    + eapply Forall_impl; [|exact Hlt]. simpl. intros; lia.
    + constructor; [lia|constructor].
Qed.

Lemma keys_fit_filter {DB : Database} {A : Type} (key : A -> Z) (f : A -> bool)
    (l : list A) :
  keys_fit (map key l) -> keys_fit (map key (filter f l)).
Proof.
  unfold keys_fit. rewrite !Forall_forall. intros H i Hi.
  apply in_map_iff in Hi. destruct Hi as (x & <- & Hx).
  apply filter_In in Hx. apply H, in_map, Hx.
Qed.

Lemma keys_fit_snoc {DB : Database} (ids : list Z) (i : Z) :
  keys_fit ids -> key_error i = None -> keys_fit (ids ++ [i]).
Proof.
  unfold keys_fit. intros H Hi. apply Forall_app. split; [exact H|].
  constructor; [exact Hi|constructor].
Qed.

Ltac wf_by_computation :=
  unfold wf, keys_ok, keys_fit; simpl;
  repeat split; repeat constructor; simpl; try lia; try reflexivity;
  intuition discriminate.

(** ** The task tools *)

Module ToolsSpec.

Import tools.

Lemma matching_owned {DB : Database} (s : Session) (i : Z) (u : string) :
  matching s i u = filter (fun x => Z.eqb (Task.id x) i) (owned u s).
Proof.
  unfold matching, owned. rewrite filter_andb.
  induction (tasks s) as [|x l IH]; simpl.
  - reflexivity.
  - destruct (Z.eqb (Task.id x) i) eqn:E1, (String.eqb (Task.user_id x) u) eqn:E2;
      simpl; rewrite ?E1, ?E2; rewrite IH; reflexivity.
Qed.

Lemma matching_In {DB : Database} (s : Session) (i : Z) (u : string) (x : Task.t) :
  In x (matching s i u) <->
  In x (tasks s) /\ Task.id x = i /\ Task.user_id x = u.
Proof.
  unfold matching. rewrite filter_In, andb_true_iff, Z.eqb_eq, String.eqb_eq.
  tauto.
Qed.

Lemma matching_found {DB : Database} (s : Session) (x : Task.t) :
  NoDup (map Task.id (tasks s)) -> In x (tasks s) ->
  matching s (Task.id x) (Task.user_id x) = [x].
Proof.
  intros Hnd Hin. unfold matching. rewrite filter_andb.
  rewrite (filter_key_unique Task.id) by assumption.
  simpl. rewrite String.eqb_refl. reflexivity.
Qed.

(** A query by id and owner finds no row or one row. *)
Lemma matching_cases {DB : Database} (s : Session) (i : Z) (u : string) :
  NoDup (map Task.id (tasks s)) ->
  matching s i u = []
  \/ exists x, matching s i u = [x] /\ In x (tasks s)
               /\ i = Task.id x /\ Task.user_id x = u.
Proof.
  intros Hnd.
  destruct (matching s i u) as [|x r] eqn:E; [left; reflexivity|right].
  assert (In x (matching s i u)) as Hx by (rewrite E; left; reflexivity).
  apply matching_In in Hx. destruct Hx as (Hin & Hid & Hu). subst i u.
  exists x. rewrite <- E. rewrite matching_found by assumption. auto.
Qed.

(** The tables of a session hold keys their columns hold. *)
Lemma stored_task_fits {DB : Database} (s : Session) (x : Task.t) :
  wf s -> In x (tasks s) -> key_error (Task.id x) = None.
Proof.
  intros (_ & _ & _ & Hfit & _) Hin. unfold keys_fit in Hfit.
  rewrite Forall_forall in Hfit. apply Hfit. apply in_map. exact Hin.
Qed.

(** What the lookup of a tool comes to: an exception for an id its column
    does not hold, no row, or the one row of that id and owner. *)
Lemma one_task_cases {DB : Database} (s : Session) (i : option Z) (u : string) :
  NoDup (map Task.id (tasks s)) ->
  (exists e j, i = Some j /\ key_error j = Some e /\ one_task s i u = inl e)
  \/ (one_task s i u = inr None
      /\ forall x, In x (tasks s) -> i = Some (Task.id x) -> Task.user_id x <> u)
  \/ exists x, one_task s i u = inr (Some x) /\ In x (tasks s)
               /\ i = Some (Task.id x) /\ Task.user_id x = u.
Proof.
  intros Hnd. unfold one_task, select_task.
  destruct i as [i|].
  - destruct (key_error i) as [e|] eqn:Ek.
    + left. exists e, i. auto.
    + right. destruct (matching_cases s i u Hnd) as [E|(x & E & Hin & Hi & Hu)].
      * left. rewrite E. split; [reflexivity|].
        intros x Hx Hi Hu. injection Hi as ->.
        assert (In x (matching s (Task.id x) u)) as H by (apply matching_In; auto).
        rewrite E in H. exact H.
      * right. exists x. rewrite E. subst i. auto.
  - right. left. split; [reflexivity|]. intros x _ H. discriminate H.
Qed.

Lemma one_task_found {DB : Database} (s : Session) (x : Task.t) :
  wf s -> In x (tasks s) ->
  one_task s (Some (Task.id x)) (Task.user_id x) = inr (Some x).
Proof.
  intros Hwf Hin. unfold one_task, select_task.
  rewrite (stored_task_fits s x Hwf Hin).
  rewrite matching_found; [reflexivity|apply Hwf|exact Hin].
Qed.

(** *** The primary keys stay distinct and below the sequence *)

Lemma map_id_update {DB : Database} (pk : Z) (f : Task.t -> Task.t) (l : list Task.t) :
  (forall x, Task.id (f x) = Task.id x) ->
  map Task.id (map (fun x => if Z.eqb (Task.id x) pk then f x else x) l) = map Task.id l.
Proof.
  intros Hf. rewrite map_map. apply map_ext. intros x.
  destruct (Z.eqb (Task.id x) pk); [apply Hf|reflexivity].
Qed.

Lemma wf_update_row {DB : Database} (pk : Z) (f : Task.t -> Task.t) (s : Session) :
  (forall x, Task.id (f x) = Task.id x) -> wf s -> wf (update_row pk f s).
Proof.
  intros Hf (Ht & Hc & Hm & Hft & Hfc). unfold wf, keys_fit, update_row. simpl.
  rewrite map_id_update by assumption. auto.
Qed.

Lemma wf_delete_row {DB : Database} (pk : Z) (s : Session) : wf s -> wf (delete_row pk s).
Proof.
  intros (Ht & Hc & Hm & Hft & Hfc). unfold wf, delete_row. simpl.
  split; [apply keys_ok_filter; assumption|].
  split; [assumption|]. split; [assumption|].
  split; [apply keys_fit_filter; assumption|assumption].
Qed.

Lemma wf_insert_row {DB : Database} (task : Task.transient) (s s' : Session)
    (row : Task.t) :
  (forall i, Task.id (task i) = i) -> wf s ->
  insert_row task s = inr (row, s') -> wf s'.
Proof.
  intros Hid (Ht & Hc & Hm & Hft & Hfc). unfold insert_row.
  destruct (key_error (tasks_seq s)) eqn:Ek; [discriminate|].
  intros E. injection E as _ <-. unfold wf. simpl.
  rewrite map_app. simpl. rewrite Hid.
  split; [apply keys_ok_snoc; assumption|].
  split; [assumption|]. split; [assumption|].
  split; [apply keys_fit_snoc; assumption|assumption].
Qed.

Lemma wf_empty_session {DB : Database} : wf empty_session.
Proof.
  unfold wf, keys_ok, keys_fit. simpl. repeat split; constructor.
Qed.

(** *** Creating *)

(** C1. Whoever the owner, [add_task] with the empty title returns an error
    dictionary in place of the created one and leaves the session as it
    was; the dispatcher passes the empty title when the model gives none
    or gives it empty. *)
Theorem add_task_empty_title {DB : Database}
    (isoformat : Z -> string) (now1 now2 : Z) (s : Session)
    (user_id : string) (description status : option string) (task_id : option Z) :
  exists e,
    add_task now1 now2 s user_id "" description = (VDict [("error", VStr e)], s)
    /\ todo_agent._execute_tool isoformat now1 now2 s user_id "add_task"
         (todo_agent.mk_tool_args None description status task_id)
       = (VDict [("error", VStr e)], s)
    /\ todo_agent._execute_tool isoformat now1 now2 s user_id "add_task"
         (todo_agent.mk_tool_args (Some "") description status task_id)
       = (VDict [("error", VStr e)], s)
    /\ forall i title, VDict [("error", VStr e)] <> created i title.
Proof.
  exists "ValidationError". repeat split; try reflexivity.
  intros i title H. discriminate H.
Qed.

Lemma add_task_created {DB : Database} (now1 now2 : Z) (s : Session) (user_id title : string)
    (description : option string) :
  title <> "" -> key_error (tasks_seq s) = None ->
  add_task now1 now2 s user_id title description
  = (created (tasks_seq s) title,
     with_tasks (tasks s ++ [Task.mk (tasks_seq s) user_id title description false now1 now2])
                (tasks_seq s + 1) s).
Proof.
  intros Hne Hk. unfold add_task, insert_row, Task.init.
  apply String.eqb_neq in Hne. rewrite Hne, Hk. reflexivity.
Qed.

(** [add_task] answers an error and stores nothing, or stores one new row
    under the next key. *)
Lemma add_task_cases {DB : Database} (now1 now2 : Z) (s : Session) (user_id title : string)
    (description : option string) :
  (exists e, add_task now1 now2 s user_id title description
             = (VDict [("error", VStr e)], s))
  \/ (title <> "" /\ key_error (tasks_seq s) = None
      /\ add_task now1 now2 s user_id title description
         = (created (tasks_seq s) title,
            with_tasks (tasks s ++ [Task.mk (tasks_seq s) user_id title description
                                             false now1 now2])
                       (tasks_seq s + 1) s)).
Proof.
  destruct (String.eqb title "") eqn:E.
  - apply String.eqb_eq in E. subst. left. eexists. reflexivity.
  - apply String.eqb_neq in E.
    destruct (key_error (tasks_seq s)) as [e|] eqn:Ek.
    + left. exists e. unfold add_task, insert_row, Task.init.
      apply String.eqb_neq in E. rewrite E, Ek. reflexivity.
    + right. split; [exact E|]. split; [reflexivity|].
      apply add_task_created; assumption.
Qed.

Lemma wf_add_task {DB : Database} (now1 now2 : Z) (s : Session) (user_id title : string)
    (description : option string) :
  wf s -> wf (snd (add_task now1 now2 s user_id title description)).
Proof.
  intros Hwf.
  destruct (add_task_cases now1 now2 s user_id title description)
    as [(e & ->)|(_ & Hk & ->)].
  - exact Hwf.
  - simpl.
    apply (wf_insert_row (fun i => Task.mk i user_id title description false now1 now2)
             s _ (Task.mk (tasks_seq s) user_id title description false now1 now2));
      [reflexivity|exact Hwf|].
    unfold insert_row. rewrite Hk. reflexivity.
Qed.

(** *** Listing *)

Lemma query_tasks_owned {DB : Database} (s : Session) (u : string) (status : option string) :
  query_tasks s u status
  = order_by (fun a b => Z.leb (Task.created_at b) (Task.created_at a))
      (filter (status_matches status) (owned u s)).
Proof.
  unfold query_tasks, status_matches, owned. f_equal.
  destruct (is_status status "pending").
  - apply filter_ext. intros x. destruct (Task.completed x); reflexivity.
  - destruct (is_status status "completed").
    + apply filter_ext. intros x. destruct (Task.completed x); reflexivity.
    + symmetry. apply filter_all. reflexivity.
Qed.

Lemma query_tasks_In {DB : Database}
    (s : Session) (u : string) (status : option string) (x : Task.t) :
  In x (query_tasks s u status)
  <-> In x (tasks s) /\ Task.user_id x = u /\ status_matches status x = true.
Proof.
  rewrite query_tasks_owned, order_by_In. unfold owned.
  rewrite !filter_In, String.eqb_eq. tauto.
Qed.

Lemma query_tasks_sorted {DB : Database} (s : Session) (u : string) (status : option string) :
  StronglySorted newest_first (query_tasks s u status).
Proof.
  rewrite query_tasks_owned. apply order_by_newest_first.
Qed.

(** A row of the owner's is listed once when it passes the filter, and not
    at all when it does not. *)
Lemma query_tasks_occurrences {DB : Database}
    (s : Session) (status : option string) (x : Task.t) :
  NoDup (map Task.id (tasks s)) -> In x (tasks s) ->
  occurrences (Task.id x) (query_tasks s (Task.user_id x) status)
  = if status_matches status x then 1%nat else 0%nat.
Proof.
  intros Hnd Hin. unfold occurrences.
  rewrite query_tasks_owned, filter_order_by_length. unfold owned.
  rewrite (filter_comm _ (status_matches status)).
  rewrite (filter_comm _ (fun y => String.eqb (Task.user_id y) (Task.user_id x))).
  rewrite (filter_key_unique Task.id) by assumption.
  simpl. rewrite String.eqb_refl. simpl.
  destruct (status_matches status x); reflexivity.
Qed.

Lemma str_or_listed {DB : Database} (status : string) :
  In status ["all"; "pending"; "completed"] -> str_or (Some status) "all" = status.
Proof.
  intros [<-|[<-|[<-|[]]]]; reflexivity.
Qed.

Lemma list_tasks_items {DB : Database} (isoformat : Z -> string) (s : Session)
    (u : string) (status : option string) :
  items "tasks" (fst (list_tasks isoformat s u status))
  = map (task_item isoformat) (query_tasks s u status).
Proof.
  reflexivity.
Qed.

Lemma task_item_shows {DB : Database} (isoformat : Z -> string) (rows : list Task.t) :
  Forall2 (shows_task isoformat) rows (map (task_item isoformat) rows).
Proof.
  induction rows as [|x l IH]; simpl; constructor.
  - unfold shows_task. repeat split.
  - exact IH.
Qed.

(** The dictionaries with an id are as many as the rows with it. *)
Lemma listed_occurrences {DB : Database} (isoformat : Z -> string) (s : Session)
    (u : string) (status : option string) (i : Z) :
  listed i (fst (list_tasks isoformat s u status))
  = occurrences i (query_tasks s u status).
Proof.
  unfold listed, occurrences. rewrite list_tasks_items.
  induction (query_tasks s u status) as [|x l IH]; simpl.
  - reflexivity.
  - change (has_id i (task_item isoformat x)) with (Z.eqb (Task.id x) i).
    destruct (Z.eqb (Task.id x) i); simpl; rewrite IH; reflexivity.
Qed.

(** C6. The answer of [list_tasks] carries under ["tasks"] one dictionary
    for each of the owner's rows that pass the filter and for no other row,
    newest first, each showing its row; under ["count"] their number and
    under ["status_filter"] the filter it was given, and the session is as
    it was.  A task that [add_task] has just created is shown by one
    dictionary under "all", by one under "pending" and by none under
    "completed", and in any session a task of the owner's is shown by one
    dictionary under "all" and under "pending" exactly when it is not
    completed. *)
Theorem list_tasks_newest_first {DB : Database}
    (isoformat : Z -> string) (s : Session) (user_id : string)
    (status : option string) (now1 now2 : Z) (title : string)
    (description : option string) (i : Z) :
  wf s ->
  fst (add_task now1 now2 s user_id title description) = created i title ->
  let rows := query_tasks s user_id status in
  let task_list := map (task_item isoformat) rows in
  let answer := fst (list_tasks isoformat s user_id status) in
  let s' := snd (add_task now1 now2 s user_id title description) in
  (list_tasks isoformat s user_id status
   = (VDict [("tasks", VList task_list);
             ("count", VInt (Z.of_nat (List.length task_list)));
             ("status_filter", VStr (str_or status "all"))], s)
   /\ Forall2 (shows_task isoformat) rows (items "tasks" answer)
   /\ field "count" answer = VInt (Z.of_nat (List.length (items "tasks" answer)))
   /\ field "status_filter" answer = VStr (str_or status "all")
   /\ StronglySorted newest_first rows
   /\ (forall x, In x rows <->
                 In x (tasks s) /\ Task.user_id x = user_id
                 /\ status_matches status x = true)
   /\ (forall name, In name ["all"; "pending"; "completed"] ->
                    str_or (Some name) "all" = name)
   /\ str_or None "all" = "all")
  /\ (wf s'
      /\ listed i (fst (list_tasks isoformat s' user_id (Some "all"))) = 1%nat
      /\ listed i (fst (list_tasks isoformat s' user_id (Some "pending"))) = 1%nat
      /\ listed i (fst (list_tasks isoformat s' user_id (Some "completed"))) = 0%nat
      /\ occurrences i (query_tasks s' user_id (Some "all")) = 1%nat
      /\ occurrences i (query_tasks s' user_id (Some "pending")) = 1%nat
      /\ occurrences i (query_tasks s' user_id (Some "completed")) = 0%nat)
  /\ (forall s'' x, wf s'' -> In x (tasks s'') -> Task.user_id x = user_id ->
        listed (Task.id x) (fst (list_tasks isoformat s'' user_id (Some "all"))) = 1%nat
        /\ listed (Task.id x) (fst (list_tasks isoformat s'' user_id (Some "pending")))
           = (if Task.completed x then 0%nat else 1%nat)
        /\ occurrences (Task.id x) (query_tasks s'' user_id (Some "all")) = 1%nat
        /\ occurrences (Task.id x) (query_tasks s'' user_id (Some "pending"))
           = if Task.completed x then 0%nat else 1%nat).
Proof.
  intros Hwf Hcreated rows task_list answer s'.
  split; [|split].
  - split; [reflexivity|].
    split; [apply task_item_shows|].
    split; [reflexivity|]. split; [reflexivity|].
    split; [apply query_tasks_sorted|].
    split; [apply query_tasks_In|].
    split; [apply str_or_listed|reflexivity].
  - assert (wf s') as Hwf' by (apply wf_add_task, Hwf).
    split; [exact Hwf'|].
    rewrite !listed_occurrences.
    subst s'.
    destruct (add_task_cases now1 now2 s user_id title description)
      as [(e & E)|(_ & _ & E)];
      rewrite E in *; simpl in Hcreated; [discriminate Hcreated|].
    injection Hcreated as <-.
    set (x := Task.mk (tasks_seq s) user_id title description false now1 now2).
    set (s1 := with_tasks (tasks s ++ [x]) (tasks_seq s + 1) s) in *.
    assert (In x (tasks s1)) as Hin by (simpl; apply in_or_app; right; left; reflexivity).
    destruct Hwf' as ((Hnd & _) & _).
    change (tasks_seq s) with (Task.id x).
    change user_id with (Task.user_id x).
    rewrite !query_tasks_occurrences by assumption.
    repeat split.
  - intros s'' x (( Hnd & _) & _) Hin <-.
    rewrite !listed_occurrences.
    rewrite !query_tasks_occurrences by assumption.
    unfold status_matches. simpl.
    destruct (Task.completed x); repeat split; reflexivity.
Qed.

Lemma list_tasks_newest_first_witness :
  wf Sample.alone
  /\ listed 4 (fst (list_tasks Sample.isoformat
                      (snd (add_task 30 30 Sample.alone "alice" "call mom" None))
                      "alice" (Some "pending"))) = 1%nat.
Proof.
  assert (wf Sample.alone) as Hwf by wf_by_computation.
  split; [exact Hwf|].
  apply (list_tasks_newest_first Sample.isoformat Sample.alone "alice" (Some "pending")
           30 30 "call mom" None 4 Hwf eq_refl).
Defined.

(** *** Isolation of owners *)

Lemma one_task_agree {DB : Database} (s1 s2 : Session) (i : option Z) (u : string) :
  owned u s1 = owned u s2 -> one_task s1 i u = one_task s2 i u.
Proof.
  intros H. unfold one_task, select_task. destruct i as [i|]; [|reflexivity].
  destruct (key_error i); [reflexivity|].
  rewrite !matching_owned, H. reflexivity.
Qed.

Lemma one_task_In {DB : Database} (s : Session) (i : option Z) (u : string) (x : Task.t) :
  one_task s i u = inr (Some x) ->
  In x (tasks s) /\ i = Some (Task.id x) /\ Task.user_id x = u.
Proof.
  unfold one_task, select_task. destruct i as [i|]; [|discriminate].
  destruct (key_error i); [discriminate|].
  destruct (matching s i u) as [|y [|z r]] eqn:E; try discriminate.
  intros H. injection H as ->.
  assert (In x (matching s i u)) as Hx by (rewrite E; left; reflexivity).
  apply matching_In in Hx. destruct Hx as (Hin & <- & Hu). auto.
Qed.

Lemma owned_update_row {DB : Database}
    (u : string) (pk : Z) (f : Task.t -> Task.t) (s : Session) :
  (forall x, Task.user_id (f x) = Task.user_id x) ->
  owned u (update_row pk f s)
  = map (fun x => if Z.eqb (Task.id x) pk then f x else x) (owned u s).
Proof.
  intros Hf. unfold owned, update_row. simpl.
  rewrite filter_map_swap. f_equal. apply filter_ext. intros x.
  destruct (Z.eqb (Task.id x) pk); [rewrite Hf|]; reflexivity.
Qed.

Lemma owned_delete_row {DB : Database} (u : string) (pk : Z) (s : Session) :
  owned u (delete_row pk s)
  = filter (fun x => negb (Z.eqb (Task.id x) pk)) (owned u s).
Proof.
  unfold owned, delete_row. simpl. apply filter_comm.
Qed.

(** The rows of another owner do not carry the key of this owner's row. *)
Lemma other_owner_other_key {DB : Database} (s : Session) (x y : Task.t) (B : string) :
  NoDup (map Task.id (tasks s)) -> In x (tasks s) -> Task.user_id x <> B ->
  In y (owned B s) -> Z.eqb (Task.id y) (Task.id x) = false.
Proof.
  intros Hnd Hx Hne Hy. apply filter_In in Hy. destruct Hy as [Hy Hu].
  apply String.eqb_eq in Hu. apply Z.eqb_neq. intros E.
  apply Hne. rewrite <- Hu. f_equal. symmetry.
  apply (key_injective Task.id (tasks s)); assumption.
Qed.

Lemma owned_update_row_other {DB : Database} (s : Session) (x : Task.t) (B : string)
    (f : Task.t -> Task.t) :
  (forall y, Task.user_id (f y) = Task.user_id y) ->
  NoDup (map Task.id (tasks s)) -> In x (tasks s) -> Task.user_id x <> B ->
  owned B (update_row (Task.id x) f s) = owned B s.
Proof.
  intros Hf Hnd Hx Hne. rewrite owned_update_row by assumption.
  rewrite <- (map_id (owned B s)) at 2. apply map_ext_in. intros y Hy.
  rewrite (other_owner_other_key s x y B); auto.
Qed.

Lemma owned_delete_row_other {DB : Database} (s : Session) (x : Task.t) (B : string) :
  NoDup (map Task.id (tasks s)) -> In x (tasks s) -> Task.user_id x <> B ->
  owned B (delete_row (Task.id x) s) = owned B s.
Proof.
  intros Hnd Hx Hne. rewrite owned_delete_row. apply filter_all. intros y Hy.
  rewrite (other_owner_other_key s x y B); auto.
Qed.

(** What a tool does once its query has run, for the three tools that
    change a row: nothing without exactly one row, and else an answer
    [answer] and a change of the row by primary key. *)
Lemma same_for_rows {DB : Database} (A B : string) (s1 s2 : Session) (i : option Z)
    (answer : Task.t -> value) (change : Z -> Session -> Session)
    (r1 r2 : value * Session) :
  A <> B -> wf s1 -> wf s2 -> owned A s1 = owned A s2 ->
  (forall e, one_task s1 i A = inl e -> r1 = (VDict [("error", VStr e)], s1)) ->
  (forall e, one_task s2 i A = inl e -> r2 = (VDict [("error", VStr e)], s2)) ->
  (one_task s1 i A = inr None -> r1 = (not_found i, s1)) ->
  (one_task s2 i A = inr None -> r2 = (not_found i, s2)) ->
  (forall x, one_task s1 i A = inr (Some x) -> r1 = (answer x, change (Task.id x) s1)) ->
  (forall x, one_task s2 i A = inr (Some x) -> r2 = (answer x, change (Task.id x) s2)) ->
  (forall x s, In x (tasks s) -> Task.user_id x = A -> wf s ->
               owned B (change (Task.id x) s) = owned B s) ->
  (forall pk, owned A (change pk s1) = owned A (change pk s2)) ->
  same_for A B s1 s2 r1 r2.
Proof.
  intros HAB Hwf1 Hwf2 Hown Herr1 Herr2 Hnone1 Hnone2 Hone1 Hone2 Hother Hsame.
  pose proof (one_task_agree s1 s2 i A Hown) as Hsel.
  destruct (one_task s1 i A) as [e|[x|]] eqn:E1.
  - rewrite (Herr1 e eq_refl), (Herr2 e (eq_sym Hsel)).
    unfold same_for. simpl. auto.
  - destruct (one_task_In s1 i A x E1) as (Hin1 & _ & Hu).
    destruct (one_task_In s2 i A x (eq_sym Hsel)) as (Hin2 & _ & _).
    rewrite (Hone1 x eq_refl), (Hone2 x (eq_sym Hsel)).
    unfold same_for. simpl.
    split; [reflexivity|]. split; [apply Hsame|].
    split; apply Hother; auto.
  - rewrite (Hnone1 eq_refl), (Hnone2 (eq_sym Hsel)).
    unfold same_for. simpl. auto.
Qed.

(** C3. Let two sessions hold the same rows of owner [A] and differ at
    will in the rows of others, so that a task id may belong to [B] in one
    and to nobody in the other.  Then list, complete, delete and update,
    called for [A] with any id, answer the same in both and leave [A] the
    same rows in both, and the rows of [B] are in each session what they
    were before the call. *)
Theorem tasks_isolated {DB : Database}
    (isoformat : Z -> string) (A B : string) (s1 s2 : Session) :
  A <> B -> wf s1 -> wf s2 -> owned A s1 = owned A s2 ->
  (forall status,
      same_for A B s1 s2 (list_tasks isoformat s1 A status)
                         (list_tasks isoformat s2 A status))
  /\ (forall now task_id,
         same_for A B s1 s2 (complete_task now s1 A task_id)
                            (complete_task now s2 A task_id))
  /\ (forall task_id,
         same_for A B s1 s2 (delete_task s1 A task_id) (delete_task s2 A task_id))
  /\ (forall now task_id title description,
         same_for A B s1 s2 (update_task now s1 A task_id title description)
                            (update_task now s2 A task_id title description)).
Proof.
  intros HAB Hwf1 Hwf2 Hown.
  assert (forall x s, In x (tasks s) -> Task.user_id x = A -> Task.user_id x <> B) as Hne.
  { intros x s _ -> E. apply HAB, E. }
  split; [|split; [|split]].
  - intros status. unfold same_for, list_tasks. simpl.
    rewrite !query_tasks_owned, Hown. auto.
  - intros now i.
    apply (same_for_rows A B s1 s2 i
             (fun x => VDict [("task_id", VInt (Task.id x));
                              ("status", VStr "completed");
                              ("title", VStr (Task.title x))])
             (fun pk => update_row pk
                (fun x => Task.set_updated_at now (Task.set_completed true x))));
      try assumption.
    + intros e H. unfold complete_task. rewrite H. reflexivity.
    + intros e H. unfold complete_task. rewrite H. reflexivity.
    + intros H. unfold complete_task. rewrite H. reflexivity.
    + intros H. unfold complete_task. rewrite H. reflexivity.
    + intros x H. unfold complete_task. rewrite H. reflexivity.
    + intros x H. unfold complete_task. rewrite H. reflexivity.
    + intros x s Hin Hu Hwf. apply owned_update_row_other; eauto.
      apply (proj1 (proj1 Hwf)).
    + intros pk. rewrite !owned_update_row, Hown by reflexivity. reflexivity.
  - intros i.
    apply (same_for_rows A B s1 s2 i
             (fun x => VDict [("task_id", of_optional_int i);
                              ("status", VStr "deleted");
                              ("title", VStr (Task.title x))])
             delete_row);
      try assumption.
    + intros e H. unfold delete_task. rewrite H. reflexivity.
    + intros e H. unfold delete_task. rewrite H. reflexivity.
    + intros H. unfold delete_task. rewrite H. reflexivity.
    + intros H. unfold delete_task. rewrite H. reflexivity.
    + intros x H. unfold delete_task. rewrite H. reflexivity.
    + intros x H. unfold delete_task. rewrite H. reflexivity.
    + intros x s Hin Hu Hwf. apply owned_delete_row_other; eauto.
      apply (proj1 (proj1 Hwf)).
    + intros pk. rewrite !owned_delete_row, Hown. reflexivity.
  - intros now i title description.
    set (change := fun x : Task.t =>
           Task.set_updated_at now
             (match description with
              | Some d => Task.set_description (Some d)
              | None => fun y => y
              end (match title with
                   | Some t => Task.set_title t x
                   | None => x
                   end))).
    assert (forall x, Task.user_id (change x) = Task.user_id x) as Hch.
    { intros x. unfold change. destruct description, title; reflexivity. }
    apply (same_for_rows A B s1 s2 i
             (fun x => VDict [("task_id", VInt (Task.id x));
                              ("status", VStr "updated");
                              ("title", VStr (Task.title (change x)))])
             (fun pk => update_row pk change));
      try assumption.
    + intros e H. unfold update_task. rewrite H. reflexivity.
    + intros e H. unfold update_task. rewrite H. reflexivity.
    + intros H. unfold update_task. rewrite H. reflexivity.
    + intros H. unfold update_task. rewrite H. reflexivity.
    + intros x H. unfold update_task. rewrite H. simpl. unfold change.
      destruct description, title; reflexivity.
    + intros x H. unfold update_task. rewrite H. simpl. unfold change.
      destruct description, title; reflexivity.
    + intros x s Hin Hu Hwf. apply owned_update_row_other; eauto.
      apply (proj1 (proj1 Hwf)).
    + intros pk. rewrite !owned_update_row, Hown by exact Hch. reflexivity.
Qed.

(** Task 3 is Bob's in one session and nobody's in the other: Alice is
    told the same when she asks to complete it. *)
Lemma tasks_isolated_witness :
  "alice" <> "bob" /\ wf Sample.shared /\ wf Sample.alone
  /\ owned "alice" Sample.shared = owned "alice" Sample.alone
  /\ same_for "alice" "bob" Sample.shared Sample.alone
       (complete_task 30 Sample.shared "alice" (Some 3))
       (complete_task 30 Sample.alone "alice" (Some 3)).
Proof.
  assert ("alice" <> "bob") as H0 by discriminate.
  assert (wf Sample.shared) as H1 by wf_by_computation.
  assert (wf Sample.alone) as H2 by wf_by_computation.
  assert (owned "alice" Sample.shared = owned "alice" Sample.alone) as H3 by reflexivity.
  repeat (split; [assumption|]).
  apply (tasks_isolated Sample.isoformat "alice" "bob" _ _ H0 H1 H2 H3).
Defined.

(** *** Completing *)

Lemma update_row_same {DB : Database} (pk : Z) (f g : Task.t -> Task.t) (s : Session) :
  (forall y, In y (tasks s) -> Task.id y = pk -> f y = g y) ->
  update_row pk f s = update_row pk g s.
Proof.
  intros H. unfold update_row. f_equal. apply map_ext_in. intros y Hy.
  destruct (Z.eqb (Task.id y) pk) eqn:E; [|reflexivity].
  apply H; [exact Hy|apply Z.eqb_eq, E].
Qed.

Lemma update_row_nothing {DB : Database}
    (pk : Z) (s : Session) : update_row pk (fun y => y) s = s.
Proof.
  destruct s as [ts tq cs cq ms mq]. unfold update_row, with_tasks. simpl. f_equal.
  rewrite <- (map_id ts) at 2. apply map_ext. intros y.
  destruct (Z.eqb (Task.id y) pk); reflexivity.
Qed.

Lemma In_update_row {DB : Database} (pk : Z) (f : Task.t -> Task.t) (s : Session) (x : Task.t) :
  In x (tasks s) -> Task.id x = pk -> In (f x) (tasks (update_row pk f s)).
Proof.
  intros Hin E. unfold update_row. simpl.
  apply in_map_iff. exists x. split; [|exact Hin].
  apply Z.eqb_eq in E. rewrite E. reflexivity.
Qed.

Lemma complete_task_found {DB : Database} (now : Z) (s : Session) (x : Task.t) :
  wf s -> In x (tasks s) ->
  complete_task now s (Task.user_id x) (Some (Task.id x))
  = (done "completed" (Task.id x) (Task.title x),
     update_row (Task.id x)
       (fun y => Task.set_updated_at now (Task.set_completed true y)) s).
Proof.
  intros Hwf Hin. unfold complete_task.
  rewrite one_task_found by assumption. reflexivity.
Qed.

(** The claim of C4 as it is worded fails: a second [complete_task] writes
    the clock into [updated_at] again. *)
Lemma second_complete_task_changes_session :
  wf Sample.alone /\ In Sample.milk (tasks Sample.alone)
  /\ snd (complete_task 40 (snd (complete_task 30 Sample.alone "alice" (Some 1)))
                        "alice" (Some 1))
     <> snd (complete_task 30 Sample.alone "alice" (Some 1)).
Proof.
  split; [wf_by_computation|]. split; [left; reflexivity|].
  intros H. discriminate H.
Qed.

(** C4, amended.  Completing an owned task twice answers "completed" with
    the title both times; the second call changes the [updated_at] of that
    row to its own clock reading and nothing else, so the session is the
    same as after the first call when the two readings are equal. *)
Theorem complete_task_twice {DB : Database} (now1 now2 : Z) (s : Session) (x : Task.t) :
  wf s -> In x (tasks s) ->
  let user_id := Task.user_id x in
  let task_id := Some (Task.id x) in
  let r1 := complete_task now1 s user_id task_id in
  let r2 := complete_task now2 (snd r1) user_id task_id in
  fst r1 = done "completed" (Task.id x) (Task.title x)
  /\ fst r2 = done "completed" (Task.id x) (Task.title x)
  /\ snd r2 = update_row (Task.id x) (Task.set_updated_at now2) (snd r1)
  /\ (now2 = now1 -> snd r2 = snd r1).
Proof.
  intros Hwf Hin user_id task_id r1 r2. subst user_id task_id r2 r1.
  rewrite (complete_task_found now1 s x Hwf Hin). simpl.
  set (change := fun y => Task.set_updated_at now1 (Task.set_completed true y)).
  set (s1 := update_row (Task.id x) change s).
  assert (wf s1) as Hwf1 by (apply wf_update_row; [reflexivity|exact Hwf]).
  assert (In (change x) (tasks s1)) as Hin1 by (apply In_update_row; auto).
  pose proof (complete_task_found now2 s1 (change x) Hwf1 Hin1) as E.
  simpl in E. rewrite E. simpl.
  assert (forall y, In y (tasks s1) -> Task.id y = Task.id x -> y = change x) as Huniq.
  { intros y Hy Ey. apply (key_injective Task.id (tasks s1)); auto. apply Hwf1. }
  split; [reflexivity|]. split; [reflexivity|]. split.
  - apply update_row_same. intros y Hy Ey.
    rewrite (Huniq y Hy Ey). reflexivity.
  - intros ->.
    rewrite <- (update_row_nothing (Task.id x) s1) at 2.
    apply update_row_same. intros y Hy Ey. rewrite (Huniq y Hy Ey). reflexivity.
Qed.

Lemma complete_task_twice_witness :
  wf Sample.alone /\ In Sample.milk (tasks Sample.alone)
  /\ fst (complete_task 40 (snd (complete_task 30 Sample.alone "alice" (Some 1)))
                        "alice" (Some 1))
     = done "completed" 1 "buy milk".
Proof.
  assert (wf Sample.alone) as H1 by wf_by_computation.
  assert (In Sample.milk (tasks Sample.alone)) as H2 by (left; reflexivity).
  repeat (split; [assumption|]).
  apply (complete_task_twice 30 40 Sample.alone Sample.milk H1 H2).
Defined.

(** *** Updating *)

(** C7. [update_task] on an owned task writes the title and the
    description that were given and the clock into [updated_at]; the id,
    the owner, the completion flag and the creation time of the row stay,
    and so do a title or a description that was left out, every other row
    and the other tables.  The answer carries the title after the update. *)
Theorem update_task_frame {DB : Database} (now : Z) (s : Session) (x : Task.t)
    (title description : option string) :
  wf s -> In x (tasks s) ->
  let x' := Task.mk (Task.id x) (Task.user_id x)
              (match title with Some t => t | None => Task.title x end)
              (match description with Some d => Some d | None => Task.description x end)
              (Task.completed x) (Task.created_at x) now in
  update_task now s (Task.user_id x) (Some (Task.id x)) title description
  = (done "updated" (Task.id x) (Task.title x'),
     with_tasks (map (fun y => if Z.eqb (Task.id y) (Task.id x) then x' else y) (tasks s))
                (tasks_seq s) s)
  /\ (forall y, In y (tasks s) -> Z.eqb (Task.id y) (Task.id x) = true -> y = x)
  /\ (title = None -> Task.title x' = Task.title x)
  /\ (description = None -> Task.description x' = Task.description x).
Proof.
  intros Hwf Hin x'.
  assert (forall y, In y (tasks s) -> Z.eqb (Task.id y) (Task.id x) = true -> y = x)
    as Huniq.
  { intros y Hy E. apply Z.eqb_eq in E.
    apply (key_injective Task.id (tasks s)); auto. apply Hwf. }
  split; [|split; [exact Huniq|split; intros ->; reflexivity]].
  unfold update_task. rewrite one_task_found by assumption.
  simpl. f_equal.
  - unfold done, x'. simpl. destruct title, description; reflexivity.
  - unfold update_row. f_equal. apply map_ext_in. intros y Hy.
    destruct (Z.eqb (Task.id y) (Task.id x)) eqn:E; [|reflexivity].
    rewrite (Huniq y Hy E). unfold x'. destruct title, description; reflexivity.
Qed.

Lemma update_task_frame_witness :
  wf Sample.alone /\ In Sample.eggs (tasks Sample.alone)
  /\ update_task 30 Sample.alone "alice" (Some 2) (Some "buy bread") None
     = (done "updated" 2 "buy bread",
        mkSession [Sample.milk;
                   Task.mk 2 "alice" "buy bread" (Some "a dozen") false 20 30]
                  4 [] 1 [] 1).
Proof.
  assert (wf Sample.alone) as H1 by wf_by_computation.
  assert (In Sample.eggs (tasks Sample.alone)) as H2 by (right; left; reflexivity).
  repeat (split; [assumption|]).
  apply (update_task_frame 30 Sample.alone Sample.eggs (Some "buy bread") None H1 H2).
Defined.

(** *** Deleting *)

Lemma gone_not_found {DB : Database} (i : Z) (s : Session) (u : string) :
  gone i s -> key_error i = None -> one_task s (Some i) u = inr None.
Proof.
  intros [H _] Hk. unfold one_task, select_task, matching. rewrite Hk.
  rewrite filter_none; [reflexivity|]. intros y Hy.
  apply andb_false_iff. left. apply Z.eqb_neq. apply H, Hy.
Qed.

Lemma gone_update_row {DB : Database} (i pk : Z) (f : Task.t -> Task.t) (s : Session) :
  (forall y, Task.id (f y) = Task.id y) -> gone i s -> gone i (update_row pk f s).
Proof.
  intros Hf [H Hlt]. split; [|exact Hlt].
  intros y Hy. unfold update_row in Hy. simpl in Hy.
  apply in_map_iff in Hy. destruct Hy as (z & <- & Hz).
  destruct (Z.eqb (Task.id z) pk); [rewrite Hf|]; apply H, Hz.
Qed.

Lemma gone_delete_row {DB : Database}
    (i pk : Z) (s : Session) : gone i s -> gone i (delete_row pk s).
Proof.
  intros [H Hlt]. split; [|exact Hlt].
  intros y Hy. unfold delete_row in Hy. simpl in Hy.
  apply filter_In in Hy. apply H, Hy.
Qed.

Lemma gone_add_task {DB : Database} (i now1 now2 : Z) (s : Session) (u title : string)
    (d : option string) :
  gone i s -> gone i (snd (add_task now1 now2 s u title d)).
Proof.
  intros [H Hlt].
  destruct (add_task_cases now1 now2 s u title d) as [(e & ->)|(_ & _ & ->)]; simpl.
  - split; assumption.
  - split; simpl; [|lia].
    intros y Hy. apply in_app_or in Hy. destruct Hy as [Hy|[<-|[]]].
    + apply H, Hy.
    + simpl. lia.
Qed.

Lemma gone_complete_task {DB : Database} (i now : Z) (s : Session) (u : string) (k : option Z) :
  gone i s -> gone i (snd (complete_task now s u k)).
Proof.
  intros H. unfold complete_task.
  destruct (one_task s k u) as [e|[x|]]; simpl; auto.
  apply gone_update_row; [reflexivity|exact H].
Qed.

Lemma gone_delete_task {DB : Database} (i : Z) (s : Session) (u : string) (k : option Z) :
  gone i s -> gone i (snd (delete_task s u k)).
Proof.
  intros H. unfold delete_task.
  destruct (one_task s k u) as [e|[x|]]; simpl; auto.
  apply gone_delete_row, H.
Qed.

Lemma gone_update_task {DB : Database} (i now : Z) (s : Session) (u : string) (k : option Z)
    (title description : option string) :
  gone i s -> gone i (snd (update_task now s u k title description)).
Proof.
  intros H. unfold update_task.
  destruct (one_task s k u) as [e|[x|]]; simpl; auto.
  apply gone_update_row; [|exact H].
  intros y. destruct title, description; reflexivity.
Qed.

Lemma gone_run_request {DB : Database}
    (isoformat : Z -> string) (i : Z) (r : request) (s : Session) :
  gone i s -> gone i (run_request isoformat r s).
Proof.
  intros H. unfold run_request, todo_agent._execute_tool.
  repeat match goal with
         | |- context [if ?b then _ else _] => destruct b
         end.
  - apply gone_add_task, H.
  - exact H.
  - apply gone_complete_task, H.
  - apply gone_delete_task, H.
  - apply gone_update_task, H.
  - exact H.
Qed.

Lemma gone_run_requests {DB : Database} (isoformat : Z -> string) (i : Z) (l : list request)
    (s : Session) :
  gone i s -> gone i (run_requests isoformat l s).
Proof.
  revert s. induction l as [|r l IH]; intros s H; simpl.
  - exact H.
  - apply IH, gone_run_request, H.
Qed.

Lemma delete_task_gone {DB : Database} (s : Session) (u title : string) (i : Z) :
  wf s -> fst (delete_task s u (Some i)) = done "deleted" i title ->
  key_error i = None /\ gone i (snd (delete_task s u (Some i))).
Proof.
  intros Hwf. unfold delete_task.
  destruct (one_task_cases s (Some i) u (proj1 (proj1 Hwf)))
    as [(e & j & _ & _ & ->)|[(-> & _)|(x & -> & Hin & Hi & Hu)]]; simpl.
  - discriminate.
  - discriminate.
  - intros _. injection Hi as ->.
    split; [apply (stored_task_fits s x Hwf Hin)|]. split.
    + intros y Hy. unfold delete_row in Hy. simpl in Hy.
      apply filter_In in Hy. destruct Hy as [_ Hy].
      apply negb_true_iff, Z.eqb_neq in Hy. exact Hy.
    + simpl. destruct Hwf as ((_ & Hlt) & _).
      rewrite Forall_forall in Hlt. apply Hlt. apply in_map, Hin.
Qed.

(** C5. Once [delete_task] has deleted a task, and whatever tool calls of
    whatever users come after, [complete_task], [update_task] and
    [delete_task] for that owner and id answer "Task not found" with the
    id and leave the session as it is. *)
Theorem deleted_stays_not_found {DB : Database} (isoformat : Z -> string) (s : Session)
    (user_id deleted_title : string) (i : Z) (later : list request)
    (now : Z) (title description : option string) :
  wf s ->
  fst (delete_task s user_id (Some i)) = done "deleted" i deleted_title ->
  let s' := run_requests isoformat later (snd (delete_task s user_id (Some i))) in
  let answer := VDict [("error", VStr "Task not found"); ("task_id", VInt i)] in
  complete_task now s' user_id (Some i) = (answer, s')
  /\ update_task now s' user_id (Some i) title description = (answer, s')
  /\ delete_task s' user_id (Some i) = (answer, s').
Proof.
  intros Hwf Hdel s' answer.
  destruct (delete_task_gone s user_id deleted_title i Hwf Hdel) as [Hk Hgone0].
  assert (gone i s') as Hgone by (apply gone_run_requests, Hgone0).
  unfold complete_task, update_task, delete_task.
  rewrite (gone_not_found i s' user_id Hgone Hk). simpl. auto.
Qed.

Lemma deleted_stays_not_found_witness :
  wf Sample.alone
  /\ fst (delete_task Sample.alone "alice" (Some 1)) = done "deleted" 1 "buy milk"
  /\ fst (complete_task 80
            (run_requests Sample.isoformat Sample.interleaved
               (snd (delete_task Sample.alone "alice" (Some 1))))
            "alice" (Some 1))
     = VDict [("error", VStr "Task not found"); ("task_id", VInt 1)].
Proof.
  assert (wf Sample.alone) as H1 by wf_by_computation.
  assert (fst (delete_task Sample.alone "alice" (Some 1)) = done "deleted" 1 "buy milk")
    as H2 by reflexivity.
  repeat (split; [assumption|]).
  destruct (deleted_stays_not_found Sample.isoformat Sample.alone "alice" "buy milk" 1
              Sample.interleaved 80 None None H1 H2) as (E & _).
  rewrite E. reflexivity.
Defined.

End ToolsSpec.

(** ** The conversation store *)

Module ConversationSpec.

Import ConversationService.

Lemma in_creation_order_sorted {DB : Database} (s : Session) (conversation_id : Z) :
  StronglySorted oldest_first (in_creation_order s conversation_id).
Proof.
  unfold in_creation_order. eapply StronglySorted_weaken.
  2: { apply order_by_sorted.
       - intros a b H. apply Z.leb_gt in H. apply Z.leb_le. lia.
       - intros a b c H1 H2. apply Z.leb_le in H1, H2. apply Z.leb_le. lia. }
  intros a b H. apply Z.leb_le in H. exact H.
Qed.

Lemma in_creation_order_In {DB : Database} (s : Session) (conversation_id : Z) (m : Message.t) :
  In m (in_creation_order s conversation_id)
  <-> In m (messages s) /\ Message.conversation_id m = conversation_id.
Proof.
  unfold in_creation_order. rewrite order_by_In, filter_In, Z.eqb_eq. tauto.
Qed.

(** The window of [get_message_history] is cut at the front of the
    conversation, and the roles are filtered inside the window. *)
Lemma get_message_history_window {DB : Database}
    (s : Session) (conversation_id : Z) (limit : nat) :
  get_message_history s conversation_id limit
  = map as_chat
      (filter (fun msg => model_role (Message.role msg))
              (firstn limit (in_creation_order s conversation_id))).
Proof. reflexivity. Qed.

(** A conversation that fits the window is handed over whole and in
    creation order, less the messages of other roles. *)
Lemma get_message_history_whole {DB : Database}
    (s : Session) (conversation_id : Z) (limit : nat) :
  (List.length (in_creation_order s conversation_id) <= limit)%nat ->
  get_message_history s conversation_id limit
  = map as_chat
      (filter (fun msg => model_role (Message.role msg))
              (in_creation_order s conversation_id)).
Proof.
  intros H. rewrite get_message_history_window, firstn_all2 by exact H. reflexivity.
Qed.

(** C2 fails on the code.  A conversation of three messages read with a
    window of two gives the first two messages, where the claim has the
    last two. *)
Theorem get_message_history_keeps_oldest :
  in_creation_order Sample.talk 1 = [Sample.m1; Sample.m2; Sample.m3]
  /\ get_message_history Sample.talk 1 2
     = [RoleContent "user" "first"; RoleContent "assistant" "second"]
  /\ map as_chat (filter (fun msg => model_role (Message.role msg))
                         (lastn 2 (in_creation_order Sample.talk 1)))
     = [RoleContent "assistant" "second"; RoleContent "user" "third"].
Proof. repeat split. Qed.

(** *** Conversations *)

Lemma wf_create_conversation {DB : Database} (now1 now2 : Z) (s s' : Session)
    (u : string) (c : Conversation.t) :
  wf s -> create_conversation now1 now2 s u = inr (c, s') -> wf s'.
Proof.
  intros (Ht & Hc & Hm & Hft & Hfc). unfold create_conversation.
  destruct (key_error (conversations_seq s)) eqn:Ek; [discriminate|].
  intros E. injection E as _ <-. unfold wf. simpl.
  rewrite map_app. simpl.
  split; [exact Ht|]. split; [apply keys_ok_snoc, Hc|]. split; [exact Hm|].
  split; [exact Hft|apply keys_fit_snoc; assumption].
Qed.

Lemma stored_conversation_fits {DB : Database} (s : Session) (x : Conversation.t) :
  wf s -> In x (conversations s) -> key_error (Conversation.id x) = None.
Proof.
  intros (_ & _ & _ & _ & Hfit) Hin. unfold keys_fit in Hfit.
  rewrite Forall_forall in Hfit. apply Hfit. apply in_map. exact Hin.
Qed.

(** What [get_conversation] comes to: an exception for an id the column
    does not hold, no row, or the one row of that id and owner. *)
Lemma get_conversation_cases {DB : Database} (s : Session) (i : Z) (u : string) :
  wf s ->
  (exists e, key_error i = Some e /\ get_conversation s i u = inl e)
  \/ (key_error i = None /\ get_conversation s i u = inr None
      /\ forall x, In x (conversations s) -> Conversation.id x = i ->
                   Conversation.user_id x <> u)
  \/ exists x, get_conversation s i u = inr (Some x)
               /\ In x (conversations s) /\ Conversation.id x = i
               /\ Conversation.user_id x = u.
Proof.
  intros (_ & (Hnd & _) & _). unfold get_conversation.
  destruct (key_error i) as [e|] eqn:Ek; [left; exists e; auto|right].
  set (p := fun c => Z.eqb (Conversation.id c) i && String.eqb (Conversation.user_id c) u).
  destruct (filter p (conversations s)) as [|x r] eqn:E.
  - left. split; [reflexivity|]. split; [reflexivity|].
    intros x Hx Hi Hu.
    assert (In x (filter p (conversations s))) as H.
    { apply filter_In. split; [exact Hx|]. unfold p.
      apply andb_true_iff. split; [apply Z.eqb_eq, Hi|apply String.eqb_eq, Hu]. }
    rewrite E in H. exact H.
  - right. exists x.
    assert (In x (filter p (conversations s))) as H by (rewrite E; left; reflexivity).
    apply filter_In in H. destruct H as [Hx Hp]. unfold p in Hp.
    apply andb_true_iff in Hp. destruct Hp as [Hi Hu].
    apply Z.eqb_eq in Hi. apply String.eqb_eq in Hu.
    split; [|auto].
    rewrite <- E. unfold p. rewrite filter_andb. subst i.
    rewrite (filter_key_unique Conversation.id) by assumption.
    simpl. rewrite (proj2 (String.eqb_eq _ _) Hu). reflexivity.
Qed.





End ConversationSpec.

(** ** The agent loop *)

Module AgentSpec.

Import todo_agent.

Section Agent.

Context {DB : Database}.

Variable SYSTEM_PROMPT : string.
Variable isoformat : Z -> string.
Variable utcnow : nat -> Z.
Variable chat_completions_create : list chat_message -> exn + assistant_message.
Variable json_loads : string -> exn + tool_args.
Variable json_dumps : value -> string.

Abbreviation run_tool_call' := (run_tool_call isoformat utcnow json_loads json_dumps).
Abbreviation call_model' := (call_model chat_completions_create).
Abbreviation while_tool_calls' :=
  (while_tool_calls isoformat utcnow chat_completions_create json_loads json_dumps).
Abbreviation process_body' :=
  (process_body isoformat utcnow chat_completions_create json_loads json_dumps).
Abbreviation process_message' :=
  (process_message SYSTEM_PROMPT isoformat utcnow chat_completions_create
                   json_loads json_dumps).

(** *** One tool call *)

Lemma run_tool_call_eq (user_id : string) (call : tool_call) (st : state) :
  run_tool_call' user_id call st
  = match json_loads (call_arguments call) with
    | inl e => (Raise e, st)
    | inr args =>
        let (answer, session') :=
          _execute_tool isoformat (utcnow (clock st)) (utcnow (S (clock st)))
                        (session st) user_id (call_name call) args in
        (Ret tt,
         mk_state session' (S (S (clock st)))
           (messages st ++ [ToolOutput (call_id call) (json_dumps answer)])
           (tool_calls_made st ++ [mk_call_record (call_name call) args answer]))
    end.
Proof.
  unfold run_tool_call, bind, lift, execute.
  destruct (json_loads (call_arguments call)) as [e|args]; [reflexivity|].
  destruct (_execute_tool isoformat _ _ _ _ _ _) as [answer session']. reflexivity.
Qed.


(** *** One pass of the loop *)

Lemma while_tool_calls_step (fuel : nat) (user_id : string) (am : assistant_message)
    (st : state) :
  while_tool_calls' (S fuel) user_id am st
  = match requested am with
    | [] => (Ret am, st)
    | _ :: _ =>
        match for_each (run_tool_call' user_id) (requested am)
                (said (AssistantCalls (get_default (content am) "") (requested am)) st)
        with
        | (Ret _, st1) =>
            match chat_completions_create (todo_agent.messages st1) with
            | inl e => (Raise e, st1)
            | inr am' => while_tool_calls' fuel user_id am' st1
            end
        | (Raise e, st1) => (Raise e, st1)
        | (OutOfFuel, st1) => (OutOfFuel, st1)
        end
    end.
Proof.
  cbn [while_tool_calls]. destruct (requested am) as [|call calls]; [reflexivity|].
  unfold bind, messages_append, call_model, lift, said.
  destruct (for_each (run_tool_call' user_id) (call :: calls) _) as [[[]|e|] st1];
    try reflexivity.
  destruct (chat_completions_create (todo_agent.messages st1)); reflexivity.
Qed.

Lemma while_tool_calls_done (fuel : nat) (user_id : string) (am : assistant_message)
    (st : state) :
  requested am = [] -> while_tool_calls' fuel user_id am st = (Ret am, st).
Proof.
  intros H. destruct fuel; simpl; rewrite H; reflexivity.
Qed.



(** *** An unknown tool *)




(** *** What the trace records *)

Lemma keeps_ret {A : Type} (P : state -> Prop) (Q : exn -> Prop) (a : A) :
  keeps P Q (ret a).
Proof.
  intros st o st' E HP. injection E as <- <-. split; [exact HP|discriminate].
Qed.

Lemma keeps_bind {A B : Type} (P : state -> Prop) (Q : exn -> Prop) (m : M A)
    (k : A -> M B) :
  keeps P Q m -> (forall a, keeps P Q (k a)) -> keeps P Q (bind m k).
Proof.
  intros Hm Hk st o st' E HP. unfold bind in E.
  destruct (m st) as [[a|e|] st1] eqn:Em.
  - destruct (Hm _ _ _ Em HP) as [HP1 _]. exact (Hk a _ _ _ E HP1).
  - injection E as <- <-. destruct (Hm _ _ _ Em HP) as [HP1 HQ].
    split; [exact HP1|]. intros e' He. injection He as <-. apply HQ. reflexivity.
  - injection E as <- <-. destruct (Hm _ _ _ Em HP) as [HP1 _].
    split; [exact HP1|discriminate].
Qed.

Lemma keeps_for_each {A : Type} (P : state -> Prop) (Q : exn -> Prop)
    (f : A -> M unit) (l : list A) :
  (forall x, keeps P Q (f x)) -> keeps P Q (for_each f l).
Proof.
  intros Hf. induction l as [|x l IH]; simpl.
  - apply keeps_ret.
  - apply keeps_bind; [apply Hf|intros _; exact IH].
Qed.

Lemma replay_app (user_id : string) (trace : list call_record) (r : call_record)
    (s : Session) (k : nat) :
  replay isoformat utcnow user_id (trace ++ [r]) s k
  = let '(s1, k1, vs) := replay isoformat utcnow user_id trace s k in
    let (v, s2) := _execute_tool isoformat (utcnow k1) (utcnow (S k1)) s1 user_id
                                 (tool r) (input r) in
    (s2, S (S k1), vs ++ [v]).
Proof.
  revert s k. induction trace as [|r0 trace IH]; intros s k; simpl.
  - destruct (_execute_tool isoformat _ _ _ _ _ _) as [v s2]. reflexivity.
  - destruct (_execute_tool isoformat (utcnow k) _ s _ _ _) as [v0 s0].
    rewrite IH.
    destruct (replay isoformat utcnow user_id trace s0 (S (S k))) as [[s1 k1] vs].
    destruct (_execute_tool isoformat _ _ s1 _ _ _) as [v s2]. reflexivity.
Qed.

Section Recorded.

Variable user_id : string.
Variable session0 : Session.
Variable clock0 : nat.

Let P : state -> Prop := recorded isoformat utcnow user_id session0 clock0.
Let Q : exn -> Prop := raised_by chat_completions_create json_loads.

Lemma keeps_run_tool_call (call : tool_call) : keeps P Q (run_tool_call' user_id call).
Proof.
  intros st o st' E HP. rewrite run_tool_call_eq in E.
  destruct (json_loads (call_arguments call)) as [e|args] eqn:Ej.
  - injection E as <- <-. split; [exact HP|].
    intros e' He. injection He as <-. right. exists (call_arguments call). exact Ej.
  - destruct (_execute_tool isoformat _ _ _ _ _ _) as [answer session'] eqn:Ex.
    injection E as <- <-. split; [|discriminate].
    unfold P, recorded in *. simpl. rewrite replay_app, HP. simpl.
    rewrite Ex, map_app. reflexivity.
Qed.

Lemma keeps_messages_append (m : chat_message) : keeps P Q (messages_append m).
Proof.
  intros st o st' E HP. injection E as <- <-. split; [exact HP|discriminate].
Qed.

Lemma keeps_call_model : keeps P Q call_model'.
Proof.
  intros st o st' E HP. unfold call_model, lift in E.
  destruct (chat_completions_create (todo_agent.messages st)) as [e|am] eqn:Em;
    injection E as <- <-; (split; [exact HP|]); [|discriminate].
  intros e' He. injection He as <-. left. exists (todo_agent.messages st). exact Em.
Qed.

Lemma keeps_while_tool_calls (fuel : nat) (am : assistant_message) :
  keeps P Q (while_tool_calls' fuel user_id am).
Proof.
  revert am. induction fuel as [|fuel IH]; intros am; cbn [while_tool_calls];
    destruct (requested am) as [|call calls]; try apply keeps_ret.
  - intros st o st' E HP. injection E as <- <-. split; [exact HP|discriminate].
  - apply keeps_bind; [apply keeps_messages_append|intros _].
    apply keeps_bind; [apply keeps_for_each, keeps_run_tool_call|intros _].
    apply keeps_bind; [apply keeps_call_model|exact IH].
Qed.

Lemma keeps_process_body (fuel : nat) : keeps P Q (process_body' fuel user_id).
Proof.
  apply keeps_bind; [apply keeps_call_model|apply keeps_while_tool_calls].
Qed.

End Recorded.

(** *** Fuel *)

Lemma while_tool_calls_more_fuel (fuel n : nat) (user_id : string)
    (am : assistant_message) (st : state) (o : outcome assistant_message) (st' : state) :
  while_tool_calls' fuel user_id am st = (o, st') -> o <> OutOfFuel ->
  while_tool_calls' (fuel + n) user_id am st = (o, st').
Proof.
  revert am st. induction fuel as [|fuel IH]; intros am st E Ho.
  - cbn [while_tool_calls] in E. destruct (requested am) as [|call calls] eqn:Hreq.
    + rewrite while_tool_calls_done by exact Hreq. exact E.
    + injection E as <- <-. contradiction Ho. reflexivity.
  - change (S fuel + n)%nat with (S (fuel + n)).
    rewrite while_tool_calls_step in *.
    destruct (requested am) as [|call calls]; [exact E|].
    destruct (for_each _ _ _) as [[[]|e|] st1]; try exact E.
    destruct (chat_completions_create (todo_agent.messages st1)) as [e|am'];
      [exact E|].
    apply IH; assumption.
Qed.

Lemma process_body_more_fuel (fuel fuel' : nat) (user_id : string) (st : state)
    (o : outcome assistant_message) (st' : state) :
  process_body' fuel user_id st = (o, st') -> o <> OutOfFuel -> (fuel <= fuel')%nat ->
  process_body' fuel' user_id st = (o, st').
Proof.
  intros E Ho Hle. replace fuel' with (fuel + (fuel' - fuel))%nat by lia.
  unfold process_body, bind, call_model, lift in *.
  destruct (chat_completions_create (todo_agent.messages st)) as [e|am]; [exact E|].
  apply while_tool_calls_more_fuel; assumption.
Qed.

(** C9. When the model call or the parsing of a call's arguments raises [e] in
    some pass of the loop, [process_message] returns, with that much fuel
    and with more: its reply has the text that embeds [e], the error [e], and
    the trace of the state the exception left.  That trace is the record of
    the tool calls that ran, and the session returned is the one they led
    to: nothing is undone. *)
Theorem process_message_reports_failure (fuel fuel' : nat) (session : Session)
    (clock : nat) (user_id message : string) (conversation_history : list chat_message)
    (e : exn) (st : state) :
  process_body' fuel user_id
    (initial_state SYSTEM_PROMPT session clock message conversation_history)
  = (Raise e, st) ->
  (fuel <= fuel')%nat ->
  process_message' fuel' session clock user_id message conversation_history
  = Some (mk_reply ("I encountered an error: " ++ e ++ ". Please try again.")%string
                   (tool_calls_made st) (Some e),
          todo_agent.session st, todo_agent.clock st)
  /\ replay isoformat utcnow user_id (tool_calls_made st) session clock
     = (todo_agent.session st, todo_agent.clock st, map result (tool_calls_made st))
  /\ raised_by chat_completions_create json_loads e.
Proof.
  intros E Hle.
  split.
  - unfold process_message.
    rewrite (process_body_more_fuel fuel fuel' _ _ _ _ E) by (discriminate || exact Hle).
    reflexivity.
  - destruct (keeps_process_body user_id session clock fuel _ _ _ E) as [HP HQ].
    + reflexivity.
    + split; [exact HP|apply HQ; reflexivity].
Qed.

End Agent.




(** The whole turn: the unknown tool is on the trace with its error, and the
    reply is what the model said next. *)
Example unknown_tool_turn :
  process_message "You are a helpful todo assistant." Sample.isoformat Sample.utcnow
    Sample.undo_then_answer Sample.json_loads Sample.json_dumps
    1 empty_session 0 "alice" "Undo that" []
  = Some (mk_reply "I cannot undo that."
            [mk_call_record "undo" (mk_tool_args (Some "buy milk") None None None)
               (VDict [("error", VStr "Unknown tool: undo")])]
            None,
          empty_session, 2%nat).
Proof. reflexivity. Qed.

(** A turn in which the model asks for [add_task] and then cannot be
    reached: the task is in the table and on the trace of the reply. *)
Lemma process_message_reports_failure_witness :
  let r := process_body Sample.isoformat Sample.utcnow Sample.add_then_fail
             Sample.json_loads Sample.json_dumps 1 "alice" Sample.opening in
  r = (Raise "rate limit exceeded", snd r)
  /\ (1 <= 3)%nat
  /\ process_message "You are a helpful todo assistant." Sample.isoformat Sample.utcnow
       Sample.add_then_fail Sample.json_loads Sample.json_dumps
       3 empty_session 0 "alice" "Add a task to buy milk" []
     = Some (mk_reply "I encountered an error: rate limit exceeded. Please try again."
               [mk_call_record "add_task"
                  (mk_tool_args (Some "buy milk") None None None)
                  (created 1 "buy milk")]
               (Some "rate limit exceeded"),
             mkSession [Task.mk 1 "alice" "buy milk" None false 0 1] 2 [] 1 [] 1,
             2%nat).
Proof.
  intros r.
  assert (r = (Raise "rate limit exceeded", snd r)) as H1 by reflexivity.
  assert (1 <= 3)%nat as H2 by lia.
  repeat (split; [assumption|]).
  apply (process_message_reports_failure "You are a helpful todo assistant."
           Sample.isoformat Sample.utcnow Sample.add_then_fail Sample.json_loads
           Sample.json_dumps 1 3 empty_session 0 "alice" "Add a task to buy milk" []
           "rate limit exceeded" (snd r) H1 H2).
Defined.

End AgentSpec.

(** ** More on the task tools *)

Module ToolsFacts.

Import tools ToolsSpec.

(** *** What every tool call keeps *)

Lemma wf_complete_task {DB : Database} (now : Z) (s : Session) (u : string) (k : option Z) :
  wf s -> wf (snd (complete_task now s u k)).
Proof.
  intros H. unfold complete_task.
  destruct (one_task s k u) as [e|[x|]]; simpl; auto.
  apply wf_update_row; [reflexivity|exact H].
Qed.

Lemma wf_delete_task {DB : Database} (s : Session) (u : string) (k : option Z) :
  wf s -> wf (snd (delete_task s u k)).
Proof.
  intros H. unfold delete_task.
  destruct (one_task s k u) as [e|[x|]]; simpl; auto.
  apply wf_delete_row, H.
Qed.

Lemma wf_update_task {DB : Database} (now : Z) (s : Session) (u : string) (k : option Z)
    (title description : option string) :
  wf s -> wf (snd (update_task now s u k title description)).
Proof.
  intros H. unfold update_task.
  destruct (one_task s k u) as [e|[x|]]; simpl; auto.
  apply wf_update_row; [|exact H].
  intros y. destruct title, description; reflexivity.
Qed.

(** The cases of the dispatcher, for a property of the session it leaves. *)
Lemma execute_tool_cases {DB : Database} (isoformat : Z -> string) (P : Session -> Prop)
    (now1 now2 : Z) (s : Session) (u name : string) (args : todo_agent.tool_args) :
  P s ->
  (forall title d, P (snd (add_task now1 now2 s u title d))) ->
  (forall k, P (snd (complete_task now1 s u k))) ->
  (forall k, P (snd (delete_task s u k))) ->
  (forall k title d, P (snd (update_task now1 s u k title d))) ->
  P (snd (todo_agent._execute_tool isoformat now1 now2 s u name args)).
Proof.
  intros Hs Hadd Hcomplete Hdelete Hupdate. unfold todo_agent._execute_tool.
  repeat match goal with
         | |- context [if ?b then _ else _] => destruct b
         end; auto.
Qed.

(** X1. Every tool call, whatever the name and the arguments the model gave,
    leaves the primary keys of the three tables distinct and below their
    sequences. *)
Theorem execute_tool_keeps_keys {DB : Database}
    (isoformat : Z -> string) (now1 now2 : Z) (s : Session)
    (user_id tool_name : string) (args : todo_agent.tool_args) :
  wf s ->
  wf (snd (todo_agent._execute_tool isoformat now1 now2 s user_id tool_name args)).
Proof.
  intros H. apply execute_tool_cases; intros.
  - exact H.
  - apply wf_add_task, H.
  - apply wf_complete_task, H.
  - apply wf_delete_task, H.
  - apply wf_update_task, H.
Qed.

Lemma execute_tool_keeps_keys_witness :
  wf Sample.shared
  /\ wf (snd (todo_agent._execute_tool Sample.isoformat 30 31 Sample.shared "alice"
                "delete_task" (todo_agent.mk_tool_args None None None (Some 2)))).
Proof.
  assert (wf Sample.shared) as H by wf_by_computation.
  split; [exact H|].
  apply (execute_tool_keeps_keys Sample.isoformat 30 31 Sample.shared "alice"
           "delete_task" (todo_agent.mk_tool_args None None None (Some 2)) H).
Defined.

Lemma tables_kept_refl {DB : Database} (s : Session) : tables_kept s s.
Proof. unfold tables_kept. repeat split; lia. Qed.

Lemma tables_kept_with_tasks {DB : Database} (rows : list Task.t) (seq : Z) (s : Session) :
  tasks_seq s <= seq -> tables_kept s (with_tasks rows seq s).
Proof. intros H. unfold tables_kept. simpl. repeat split; exact H. Qed.

Lemma tables_kept_add_task {DB : Database} (now1 now2 : Z) (s : Session) (u title : string)
    (d : option string) :
  tables_kept s (snd (add_task now1 now2 s u title d)).
Proof.
  destruct (add_task_cases now1 now2 s u title d) as [(e & ->)|(_ & _ & ->)]; simpl.
  - apply tables_kept_refl.
  - apply tables_kept_with_tasks. lia.
Qed.

Lemma tables_kept_complete_task {DB : Database}
    (now : Z) (s : Session) (u : string) (k : option Z) :
  tables_kept s (snd (complete_task now s u k)).
Proof.
  unfold complete_task.
  destruct (one_task s k u) as [e|[x|]]; simpl;
    try apply tables_kept_refl.
  apply tables_kept_with_tasks. lia.
Qed.

Lemma tables_kept_delete_task {DB : Database} (s : Session) (u : string) (k : option Z) :
  tables_kept s (snd (delete_task s u k)).
Proof.
  unfold delete_task.
  destruct (one_task s k u) as [e|[x|]]; simpl;
    try apply tables_kept_refl.
  apply tables_kept_with_tasks. lia.
Qed.

Lemma tables_kept_update_task {DB : Database}
    (now : Z) (s : Session) (u : string) (k : option Z)
    (title d : option string) :
  tables_kept s (snd (update_task now s u k title d)).
Proof.
  unfold update_task.
  destruct (one_task s k u) as [e|[x|]]; simpl;
    try apply tables_kept_refl.
  apply tables_kept_with_tasks. lia.
Qed.

(** X2. No tool call writes to the conversation table or to the message
    table, and none takes the sequence of the task table back. *)
Theorem execute_tool_keeps_tables {DB : Database}
    (isoformat : Z -> string) (now1 now2 : Z) (s : Session)
    (user_id tool_name : string) (args : todo_agent.tool_args) :
  let s' := snd (todo_agent._execute_tool isoformat now1 now2 s user_id tool_name args) in
  conversations s' = conversations s
  /\ conversations_seq s' = conversations_seq s
  /\ messages s' = messages s
  /\ messages_seq s' = messages_seq s
  /\ tasks_seq s <= tasks_seq s'.
Proof.
  apply (execute_tool_cases isoformat (tables_kept s)); intros.
  - apply tables_kept_refl.
  - apply tables_kept_add_task.
  - apply tables_kept_complete_task.
  - apply tables_kept_delete_task.
  - apply tables_kept_update_task.
Qed.

(** *** Tasks that are not the caller's *)

Lemma one_task_foreign {DB : Database} (s : Session) (u : string) (i : Z) :
  (forall x, In x (tasks s) -> Task.id x = i -> Task.user_id x <> u) ->
  one_task s (Some i) u
  = match key_error i with
    | Some e => inl e
    | None => inr None
    end.
Proof.
  intros H. unfold one_task, select_task, matching.
  destruct (key_error i); [reflexivity|].
  rewrite filter_none; [reflexivity|]. intros x Hx.
  apply andb_false_iff.
  destruct (Z.eqb (Task.id x) i) eqn:E; [right|left; reflexivity].
  apply String.eqb_neq. apply H; [exact Hx|apply Z.eqb_eq, E].
Qed.

(** X3. When no row with the id is the caller's, because there is none or
    because it is somebody else's, [complete_task], [update_task] and
    [delete_task] change nothing; they answer "Task not found" with the id
    when the key column holds the id, and else the text of the exception
    the query raised, without the id. *)
Theorem foreign_task_not_found {DB : Database}
    (now : Z) (s : Session) (user_id : string) (i : Z)
    (title description : option string) :
  (forall x, In x (tasks s) -> Task.id x = i -> Task.user_id x <> user_id) ->
  let answer :=
    match key_error i with
    | None => VDict [("error", VStr "Task not found"); ("task_id", VInt i)]
    | Some e => VDict [("error", VStr e)]
    end in
  complete_task now s user_id (Some i) = (answer, s)
  /\ update_task now s user_id (Some i) title description = (answer, s)
  /\ delete_task s user_id (Some i) = (answer, s).
Proof.
  intros H answer. unfold complete_task, update_task, delete_task.
  rewrite (one_task_foreign s user_id i H). subst answer.
  destruct (key_error i); simpl; auto.
Qed.

(** Task 3 is Bob's, and no task has the id 2^63. *)
Lemma foreign_task_not_found_witness :
  (forall x, In x (tasks Sample.shared) -> Task.id x = 3 -> Task.user_id x <> "alice")
  /\ (forall x, In x (tasks Sample.shared) -> Task.id x = 2 ^ 63 ->
                Task.user_id x <> "alice")
  /\ delete_task Sample.shared "alice" (Some 3)
     = (VDict [("error", VStr "Task not found"); ("task_id", VInt 3)], Sample.shared)
  /\ complete_task 30 Sample.shared "alice" (Some (2 ^ 63))
     = (VDict [("error", VStr "Python int too large to convert to SQLite INTEGER")],
        Sample.shared).
Proof.
  assert (forall x, In x (tasks Sample.shared) -> Task.id x = 3 ->
                    Task.user_id x <> "alice") as H.
  { intros x [<-|[<-|[<-|[]]]]; simpl; intros E; discriminate. }
  assert (forall x, In x (tasks Sample.shared) -> Task.id x = 2 ^ 63 ->
                    Task.user_id x <> "alice") as H'.
  { intros x [<-|[<-|[<-|[]]]]; simpl; intros E; discriminate. }
  split; [exact H|]. split; [exact H'|]. split.
  - exact (proj2 (proj2
             (foreign_task_not_found 30 Sample.shared "alice" 3 None None H))).
  - exact (proj1
             (foreign_task_not_found 30 Sample.shared "alice" (2 ^ 63) None None H')).
Defined.

(** X4. When the model leaves [task_id] out, the dispatcher passes [None]:
    the three tools answer "Task not found" with a null id, whatever the other
    arguments, and change nothing. *)
Theorem missing_task_id_not_found {DB : Database}
    (isoformat : Z -> string) (now1 now2 : Z) (s : Session)
    (user_id tool_name : string) (title description status : option string) :
  In tool_name ["complete_task"; "delete_task"; "update_task"] ->
  todo_agent._execute_tool isoformat now1 now2 s user_id tool_name
    (todo_agent.mk_tool_args title description status None)
  = (VDict [("error", VStr "Task not found"); ("task_id", VNone)], s).
Proof.
  intros [<-|[<-|[<-|[]]]]; reflexivity.
Qed.

Lemma missing_task_id_not_found_witness :
  In "update_task" ["complete_task"; "delete_task"; "update_task"]
  /\ todo_agent._execute_tool Sample.isoformat 30 31 Sample.shared "alice" "update_task"
       (todo_agent.mk_tool_args (Some "new title") None None None)
     = (VDict [("error", VStr "Task not found"); ("task_id", VNone)], Sample.shared).
Proof.
  assert (In "update_task" ["complete_task"; "delete_task"; "update_task"]) as H.
  { simpl. auto. }
  split; [exact H|].
  apply (missing_task_id_not_found Sample.isoformat 30 31 Sample.shared "alice"
           "update_task" (Some "new title") None None H).
Defined.

(** *** Deleting *)

Lemma filter_split_length {DB : Database} {A : Type} (p : A -> bool) (l : list A) :
  (List.length (filter (fun y => negb (p y)) l) + List.length (filter p l))%nat
  = List.length l.
Proof.
  induction l as [|x l IH]; simpl.
  - reflexivity.
  - destruct (p x); simpl; lia.
Qed.

Lemma delete_task_found {DB : Database} (s : Session) (x : Task.t) :
  wf s -> In x (tasks s) ->
  delete_task s (Task.user_id x) (Some (Task.id x))
  = (done "deleted" (Task.id x) (Task.title x), delete_row (Task.id x) s).
Proof.
  intros Hwf Hin. unfold delete_task.
  rewrite one_task_found by assumption. reflexivity.
Qed.

(** X5. Deleting an owned task takes that row out of the table and no other:
    the answer is "deleted" with the title the task had, the table is one row
    shorter, a row is in it exactly when it was there and is not the deleted
    one, and no listing of the owner shows the id any more. *)
Theorem delete_task_removes_the_row {DB : Database}
    (s : Session) (x : Task.t) (status : option string) :
  wf s -> In x (tasks s) ->
  let r := delete_task s (Task.user_id x) (Some (Task.id x)) in
  fst r = done "deleted" (Task.id x) (Task.title x)
  /\ (forall y, In y (tasks (snd r)) <-> In y (tasks s) /\ y <> x)
  /\ (List.length (tasks (snd r)) + 1)%nat = List.length (tasks s)
  /\ tasks_seq (snd r) = tasks_seq s
  /\ occurrences (Task.id x) (query_tasks (snd r) (Task.user_id x) status) = 0%nat.
Proof.
  intros Hwf Hin r. subst r. rewrite (delete_task_found s x Hwf Hin). simpl.
  pose proof (proj1 (proj1 Hwf)) as Hnd.
  split; [reflexivity|]. split; [|split; [|split; [reflexivity|]]].
  - intros y. rewrite filter_In, negb_true_iff, Z.eqb_neq. split.
    + intros [Hy Hne]. split; [exact Hy|]. intros ->. apply Hne. reflexivity.
    + intros [Hy Hne]. split; [exact Hy|]. intros E. apply Hne.
      apply (key_injective Task.id (tasks s)); assumption.
  - pose proof (filter_split_length (fun y => Z.eqb (Task.id y) (Task.id x)) (tasks s)) as H.
    rewrite (filter_key_unique Task.id) in H by assumption. simpl in H. exact H.
  - unfold occurrences. rewrite query_tasks_owned, filter_order_by_length.
    unfold owned. simpl.
    rewrite (filter_none (fun y => Z.eqb (Task.id y) (Task.id x))); [reflexivity|].
    intros y Hy. apply filter_In in Hy. destruct Hy as [Hy _].
    apply filter_In in Hy. destruct Hy as [Hy _].
    apply filter_In in Hy. destruct Hy as [_ Hy].
    apply negb_true_iff in Hy. exact Hy.
Qed.

Lemma delete_task_removes_the_row_witness :
  wf Sample.shared /\ In Sample.eggs (tasks Sample.shared)
  /\ fst (delete_task Sample.shared "alice" (Some 2)) = done "deleted" 2 "buy eggs".
Proof.
  assert (wf Sample.shared) as H1 by wf_by_computation.
  assert (In Sample.eggs (tasks Sample.shared)) as H2 by (right; left; reflexivity).
  repeat (split; [assumption|]).
  apply (delete_task_removes_the_row Sample.shared Sample.eggs None H1 H2).
Defined.

(** X6. A task that was just created can be deleted by its owner under the id
    [add_task] returned: the rows are again what they were before the two
    calls, and the sequence has moved on, so that the id is not given out
    again. *)
Theorem add_then_delete {DB : Database} (now1 now2 : Z) (s : Session) (user_id title : string)
    (description : option string) (i : Z) :
  wf s ->
  fst (add_task now1 now2 s user_id title description) = created i title ->
  delete_task (snd (add_task now1 now2 s user_id title description)) user_id (Some i)
  = (done "deleted" i title, with_tasks (tasks s) (tasks_seq s + 1) s).
Proof.
  intros Hwf Hcreated.
  pose proof (wf_add_task now1 now2 s user_id title description Hwf) as Hwf'.
  destruct (add_task_cases now1 now2 s user_id title description)
    as [(e & E)|(_ & _ & E)];
    rewrite E in *; simpl in Hcreated; [discriminate Hcreated|].
  injection Hcreated as <-. simpl in *.
  set (x := Task.mk (tasks_seq s) user_id title description false now1 now2) in *.
  set (s1 := with_tasks (tasks s ++ [x]) (tasks_seq s + 1) s) in *.
  assert (In x (tasks s1)) as Hin by (simpl; apply in_or_app; right; left; reflexivity).
  pose proof (delete_task_found s1 x Hwf' Hin) as Hdel. simpl in Hdel.
  rewrite Hdel. f_equal.
  unfold delete_row, s1, with_tasks. simpl. f_equal.
  rewrite filter_app. simpl. rewrite Z.eqb_refl. simpl. rewrite app_nil_r.
  apply filter_all. intros y Hy. apply negb_true_iff, Z.eqb_neq.
  destruct Hwf as ((_ & Hlt) & _). rewrite Forall_forall in Hlt.
  specialize (Hlt (Task.id y) (in_map _ _ _ Hy)). lia.
Qed.

Lemma add_then_delete_witness :
  wf Sample.alone
  /\ fst (add_task 30 31 Sample.alone "alice" "call mom" None) = created 4 "call mom"
  /\ delete_task (snd (add_task 30 31 Sample.alone "alice" "call mom" None))
       "alice" (Some 4)
     = (done "deleted" 4 "call mom", mkSession [Sample.milk; Sample.eggs] 5 [] 1 [] 1).
Proof.
  assert (wf Sample.alone) as H1 by wf_by_computation.
  assert (fst (add_task 30 31 Sample.alone "alice" "call mom" None)
          = created 4 "call mom") as H2 by reflexivity.
  repeat (split; [assumption|]).
  apply (add_then_delete 30 31 Sample.alone "alice" "call mom" None 4 H1 H2).
Defined.

(** *** Completing and listing *)

(** X7. Completing an owned task sets its completion flag and writes the
    clock into [updated_at]; the title, the description, the owner, the id and
    the creation time of the row stay, and so does every other row.  From
    then on the task is listed once under "completed" and not under
    "pending". *)
Theorem complete_task_frame {DB : Database} (now : Z) (s : Session) (x : Task.t) :
  wf s -> In x (tasks s) ->
  let x' := Task.mk (Task.id x) (Task.user_id x) (Task.title x) (Task.description x)
              true (Task.created_at x) now in
  let r := complete_task now s (Task.user_id x) (Some (Task.id x)) in
  r = (done "completed" (Task.id x) (Task.title x),
       with_tasks (map (fun y => if Z.eqb (Task.id y) (Task.id x) then x' else y) (tasks s))
                  (tasks_seq s) s)
  /\ (forall y, In y (tasks s) -> y <> x -> In y (tasks (snd r)))
  /\ occurrences (Task.id x) (query_tasks (snd r) (Task.user_id x) (Some "completed"))
     = 1%nat
  /\ occurrences (Task.id x) (query_tasks (snd r) (Task.user_id x) (Some "pending"))
     = 0%nat.
Proof.
  intros Hwf Hin x' r.
  pose proof (proj1 (proj1 Hwf)) as Hnd.
  assert (r = (done "completed" (Task.id x) (Task.title x),
               with_tasks (map (fun y => if Z.eqb (Task.id y) (Task.id x) then x' else y)
                               (tasks s))
                          (tasks_seq s) s)) as Er.
  { subst r. rewrite (complete_task_found now s x Hwf Hin). f_equal.
    unfold update_row. f_equal. apply map_ext_in. intros y Hy.
    destruct (Z.eqb (Task.id y) (Task.id x)) eqn:E; [|reflexivity].
    apply Z.eqb_eq in E.
    rewrite (key_injective Task.id (tasks s) x y Hnd Hin Hy E). reflexivity. }
  split; [exact Er|]. rewrite Er. simpl.
  set (s' := with_tasks _ _ s).
  assert (In x' (tasks s')) as Hin'.
  { unfold s'. simpl. apply in_map_iff. exists x. rewrite Z.eqb_refl. auto. }
  assert (NoDup (map Task.id (tasks s'))) as Hnd'.
  { unfold s'. simpl. rewrite map_map.
    rewrite (map_ext _ Task.id); [exact Hnd|].
    intros y. destruct (Z.eqb (Task.id y) (Task.id x)) eqn:E; [|reflexivity].
    apply Z.eqb_eq in E. symmetry. exact E. }
  split.
  - intros y Hy Hne. unfold s'. simpl. apply in_map_iff. exists y.
    split; [|exact Hy].
    destruct (Z.eqb (Task.id y) (Task.id x)) eqn:E; [|reflexivity].
    apply Z.eqb_eq in E. exfalso. apply Hne.
    apply (key_injective Task.id (tasks s)); assumption.
  - change (Task.id x) with (Task.id x'). change (Task.user_id x) with (Task.user_id x').
    rewrite !query_tasks_occurrences by assumption. split; reflexivity.
Qed.

Lemma complete_task_frame_witness :
  wf Sample.shared /\ In Sample.milk (tasks Sample.shared)
  /\ complete_task 30 Sample.shared "alice" (Some 1)
     = (done "completed" 1 "buy milk",
        mkSession [Task.mk 1 "alice" "buy milk" None true 10 30; Sample.eggs; Sample.rent]
                  4 [] 1 [] 1).
Proof.
  assert (wf Sample.shared) as H1 by wf_by_computation.
  assert (In Sample.milk (tasks Sample.shared)) as H2 by (left; reflexivity).
  repeat (split; [assumption|]).
  apply (complete_task_frame 30 Sample.shared Sample.milk H1 H2).
Defined.

Lemma query_tasks_length {DB : Database} (s : Session) (u : string) (status : option string) :
  List.length (query_tasks s u status)
  = List.length (filter (status_matches status) (owned u s)).
Proof.
  rewrite query_tasks_owned. apply Permutation_length, order_by_perm.
Qed.

(** X8. The pending and the completed tasks of a user are all of the user's
    tasks: the counts [list_tasks] reports under "pending" and under
    "completed" add up to the count it reports under "all". *)
Theorem list_tasks_counts_add_up {DB : Database} (isoformat : Z -> string) (s : Session)
    (user_id : string) :
  exists pending completed all,
    field "count" (fst (list_tasks isoformat s user_id (Some "pending"))) = VInt pending
    /\ field "count" (fst (list_tasks isoformat s user_id (Some "completed")))
       = VInt completed
    /\ field "count" (fst (list_tasks isoformat s user_id (Some "all"))) = VInt all
    /\ pending + completed = all.
Proof.
  exists (Z.of_nat (List.length (query_tasks s user_id (Some "pending")))),
         (Z.of_nat (List.length (query_tasks s user_id (Some "completed")))),
         (Z.of_nat (List.length (query_tasks s user_id (Some "all")))).
  unfold list_tasks. simpl. rewrite !length_map.
  repeat (split; [reflexivity|]).
  rewrite !query_tasks_length.
  pose proof (filter_split_length Task.completed (owned user_id s)) as H.
  rewrite (filter_ext (status_matches (Some "pending")) (fun y => negb (Task.completed y)))
    by reflexivity.
  rewrite (filter_ext (status_matches (Some "completed")) Task.completed) by reflexivity.
  rewrite (filter_all (status_matches (Some "all"))) by reflexivity.
  lia.
Qed.

(** X9. A status that is neither "pending" nor "completed" filters nothing:
    [list_tasks] then returns what it returns without a status, and reports
    the status it was given, or "all" when that is the empty string. *)
Theorem list_tasks_other_status {DB : Database} (isoformat : Z -> string) (s : Session)
    (user_id status : string) :
  status <> "pending" -> status <> "completed" ->
  field "tasks" (fst (list_tasks isoformat s user_id (Some status)))
  = field "tasks" (fst (list_tasks isoformat s user_id None))
  /\ field "count" (fst (list_tasks isoformat s user_id (Some status)))
     = field "count" (fst (list_tasks isoformat s user_id None))
  /\ field "status_filter" (fst (list_tasks isoformat s user_id (Some status)))
     = VStr (if String.eqb status "" then "all" else status)
  /\ forall x, In x (query_tasks s user_id (Some status))
               <-> In x (tasks s) /\ Task.user_id x = user_id.
Proof.
  intros Hp Hc.
  assert (forall x, status_matches (Some status) x = true) as Hall.
  { intros x. unfold status_matches, is_status.
    rewrite (proj2 (String.eqb_neq _ _) Hp), (proj2 (String.eqb_neq _ _) Hc).
    reflexivity. }
  assert (query_tasks s user_id (Some status) = query_tasks s user_id None) as E.
  { rewrite !query_tasks_owned. f_equal.
    rewrite (filter_all (status_matches (Some status))) by (intros; apply Hall).
    rewrite (filter_all (status_matches None)) by reflexivity. reflexivity. }
  unfold list_tasks. simpl. rewrite E.
  repeat (split; [reflexivity|]).
  intros x. rewrite <- E, query_tasks_In, Hall. tauto.
Qed.

Lemma list_tasks_other_status_witness :
  "done" <> "pending" /\ "done" <> "completed"
  /\ field "status_filter" (fst (list_tasks Sample.isoformat Sample.shared "alice"
                                   (Some "done")))
     = VStr "done".
Proof.
  assert ("done" <> "pending") as H1 by discriminate.
  assert ("done" <> "completed") as H2 by discriminate.
  repeat (split; [assumption|]).
  apply (list_tasks_other_status Sample.isoformat Sample.shared "alice" "done" H1 H2).
Defined.

(** *** Rows of other users *)

Lemma owned_insert_other {DB : Database} (x : Task.t) (B : string) (seq : Z) (s : Session) :
  Task.user_id x <> B -> owned B (with_tasks (tasks s ++ [x]) seq s) = owned B s.
Proof.
  intros H. unfold owned. simpl. rewrite filter_app. simpl.
  rewrite (proj2 (String.eqb_neq _ _) H). apply app_nil_r.
Qed.

Lemma execute_tool_other_owner {DB : Database}
    (isoformat : Z -> string) (now1 now2 : Z) (s : Session)
    (A B name : string) (args : todo_agent.tool_args) :
  wf s -> A <> B ->
  owned B (snd (todo_agent._execute_tool isoformat now1 now2 s A name args)) = owned B s.
Proof.
  intros Hwf HAB.
  pose proof (proj1 (proj1 Hwf)) as Hnd.
  apply (execute_tool_cases isoformat (fun s' => owned B s' = owned B s)).
  - reflexivity.
  - intros title d.
    destruct (add_task_cases now1 now2 s A title d) as [(e & ->)|(_ & _ & ->)]; simpl.
    + reflexivity.
    + apply owned_insert_other. exact HAB.
  - intros k. unfold complete_task.
    destruct (one_task_cases s k A Hnd)
      as [(e & j & _ & _ & ->)|[(-> & _)|(x & -> & Hin & _ & Hu)]]; simpl.
    + reflexivity.
    + reflexivity.
    + apply owned_update_row_other; auto. rewrite Hu. exact HAB.
  - intros k. unfold delete_task.
    destruct (one_task_cases s k A Hnd)
      as [(e & j & _ & _ & ->)|[(-> & _)|(x & -> & Hin & _ & Hu)]]; simpl.
    + reflexivity.
    + reflexivity.
    + apply owned_delete_row_other; auto. rewrite Hu. exact HAB.
  - intros k title d. unfold update_task.
    destruct (one_task_cases s k A Hnd)
      as [(e & j & _ & _ & ->)|[(-> & _)|(x & -> & Hin & _ & Hu)]]; simpl.
    + reflexivity.
    + reflexivity.
    + apply owned_update_row_other; auto.
      * intros y. destruct title, d; reflexivity.
      * rewrite Hu. exact HAB.
Qed.

(** What one tool call of [A] keeps, of what a turn of [A] keeps. *)
Lemma execute_tool_turn {DB : Database}
    (isoformat : Z -> string) (now1 now2 : Z) (s0 s : Session)
    (A B name : string) (args : todo_agent.tool_args) :
  A <> B -> wf s /\ untouched B s0 s ->
  wf (snd (todo_agent._execute_tool isoformat now1 now2 s A name args))
  /\ untouched B s0 (snd (todo_agent._execute_tool isoformat now1 now2 s A name args)).
Proof.
  intros HAB [Hwf (Ho & Hc & Hcq & Hm & Hmq)].
  split.
  - apply execute_tool_cases; intros.
    + exact Hwf.
    + apply wf_add_task, Hwf.
    + apply wf_complete_task, Hwf.
    + apply wf_delete_task, Hwf.
    + apply wf_update_task, Hwf.
  - assert (tables_kept s
              (snd (todo_agent._execute_tool isoformat now1 now2 s A name args))) as Hk.
    { apply (execute_tool_cases isoformat (tables_kept s)); intros.
      - apply tables_kept_refl.
      - apply tables_kept_add_task.
      - apply tables_kept_complete_task.
      - apply tables_kept_delete_task.
      - apply tables_kept_update_task. }
    destruct Hk as (Kc & Kcq & Km & Kmq & _).
    unfold untouched.
    rewrite (execute_tool_other_owner isoformat now1 now2 s A B name args Hwf HAB).
    rewrite Kc, Kcq, Km, Kmq. auto.
Qed.

Lemma tables_kept_trans {DB : Database} (s1 s2 s3 : Session) :
  tables_kept s1 s2 -> tables_kept s2 s3 -> tables_kept s1 s3.
Proof.
  unfold tables_kept. intros (A1 & A2 & A3 & A4 & A5) (B1 & B2 & B3 & B4 & B5).
  rewrite B1, B2, B3, B4, A1, A2, A3, A4. repeat split; lia.
Qed.

Lemma tables_kept_execute_tool {DB : Database}
    (isoformat : Z -> string) (now1 now2 : Z) (s : Session)
    (u name : string) (args : todo_agent.tool_args) :
  tables_kept s (snd (todo_agent._execute_tool isoformat now1 now2 s u name args)).
Proof.
  apply (execute_tool_cases isoformat (tables_kept s)); intros.
  - apply tables_kept_refl.
  - apply tables_kept_add_task.
  - apply tables_kept_complete_task.
  - apply tables_kept_delete_task.
  - apply tables_kept_update_task.
Qed.

End ToolsFacts.

(** ** More on the agent loop *)

Module AgentFacts.

Import todo_agent AgentSpec.

Section Agent.

Context {DB : Database}.

Variable SYSTEM_PROMPT : string.
Variable isoformat : Z -> string.
Variable utcnow : nat -> Z.
Variable chat_completions_create : list chat_message -> exn + assistant_message.
Variable json_loads : string -> exn + tool_args.
Variable json_dumps : value -> string.

Abbreviation run_tool_call' := (run_tool_call isoformat utcnow json_loads json_dumps).
Abbreviation call_model' := (call_model chat_completions_create).
Abbreviation while_tool_calls' :=
  (while_tool_calls isoformat utcnow chat_completions_create json_loads json_dumps).
Abbreviation process_body' :=
  (process_body isoformat utcnow chat_completions_create json_loads json_dumps).
Abbreviation process_message' :=
  (process_message SYSTEM_PROMPT isoformat utcnow chat_completions_create
                   json_loads json_dumps).

(** *** Invariants of a turn *)

(** What every tool call keeps, the steps of the loop between the tool calls
    keep as well when it does not depend on the transcript. *)
Lemma keeps_process_body_of (P : state -> Prop) (user_id : string) (fuel : nat) :
  (forall call, keeps P (fun _ => True) (run_tool_call' user_id call)) ->
  (forall text calls st,
      P st -> P (said (AssistantCalls text calls) st)) ->
  keeps P (fun _ => True) (process_body' fuel user_id).
Proof.
  intros Hrun Hsaid.
  assert (keeps P (fun _ => True) call_model') as Hmodel.
  { intros st o st' E HP. unfold call_model, lift in E.
    destruct (chat_completions_create (todo_agent.messages st));
      injection E as <- <-; auto. }
  apply keeps_bind; [exact Hmodel|].
  induction fuel as [|fuel IH]; intros am; cbn [while_tool_calls];
    destruct (requested am) as [|call calls]; try apply keeps_ret.
  - intros st o st' E HP. injection E as <- <-. auto.
  - apply keeps_bind.
    + intros st o st' E HP. injection E as <- <-. split; [|auto].
      apply (Hsaid _ _ st HP).
    + intros _. apply keeps_bind; [apply keeps_for_each, Hrun|intros _].
      apply keeps_bind; [exact Hmodel|exact IH].
Qed.

Lemma keeps_session (R : Session -> Prop) (user_id : string) (fuel : nat) :
  (forall now1 now2 s name args,
      R s -> R (snd (_execute_tool isoformat now1 now2 s user_id name args))) ->
  keeps (fun st => R (session st)) (fun _ => True) (process_body' fuel user_id).
Proof.
  intros HR. apply keeps_process_body_of.
  - intros call st o st' E HP. rewrite run_tool_call_eq in E.
    destruct (json_loads (call_arguments call)) as [e|args].
    + injection E as <- <-. auto.
    + specialize (HR (utcnow (clock st)) (utcnow (S (clock st))) (session st)
                     (call_name call) args HP).
      destruct (_execute_tool isoformat _ _ _ _ _ _) as [answer session'].
      injection E as <- <-. auto.
  - intros text calls st HP. exact HP.
Qed.

Lemma process_message_body (fuel : nat) (s : Session) (k : nat)
    (user_id message : string) (history : list chat_message)
    (r : reply) (s' : Session) (k' : nat) :
  process_message' fuel s k user_id message history = Some (r, s', k') ->
  exists o st,
    process_body' fuel user_id (initial_state SYSTEM_PROMPT s k message history) = (o, st)
    /\ session st = s' /\ clock st = k' /\ reply_tool_calls r = tool_calls_made st
    /\ o <> OutOfFuel.
Proof.
  unfold process_message. intros E.
  destruct (process_body' fuel user_id _) as [[am|e|] st] eqn:Eb; [| |discriminate E];
    injection E as <- <- <-.
  - exists (Ret am), st. simpl. repeat split. discriminate.
  - exists (Raise e), st. simpl. repeat split. discriminate.
Qed.

(** X10. Whatever the model asks for during a turn of user [A], the task rows
    of another user are after the turn what they were before it, the
    conversation and message tables are not written, and the primary keys
    stay in order. *)
Theorem turn_leaves_other_users (fuel : nat) (s : Session) (k : nat)
    (A B message : string) (history : list chat_message)
    (r : reply) (s' : Session) (k' : nat) :
  wf s -> A <> B ->
  process_message' fuel s k A message history = Some (r, s', k') ->
  wf s' /\ untouched B s s'.
Proof.
  intros Hwf HAB E.
  destruct (process_message_body _ _ _ _ _ _ _ _ _ E) as (o & st & Eb & <- & _ & _ & _).
  assert (forall now1 now2 s1 name args,
             wf s1 /\ untouched B s s1 ->
             wf (snd (_execute_tool isoformat now1 now2 s1 A name args))
             /\ untouched B s (snd (_execute_tool isoformat now1 now2 s1 A name args)))
    as Hstep.
  { intros now1 now2 s1 name args H1. apply ToolsFacts.execute_tool_turn; assumption. }
  apply (keeps_session (fun s1 => wf s1 /\ untouched B s s1) A fuel Hstep _ _ _ Eb).
  simpl. split; [exact Hwf|]. unfold untouched. auto.
Qed.

(** A turn writes to the task table alone. *)
Lemma turn_keeps_tables (fuel : nat) (s : Session) (k : nat)
    (user_id message : string) (history : list chat_message)
    (r : reply) (s' : Session) (k' : nat) :
  process_message' fuel s k user_id message history = Some (r, s', k') ->
  tables_kept s s'.
Proof.
  intros E.
  destruct (process_message_body _ _ _ _ _ _ _ _ _ E) as (o & st & Eb & <- & _ & _ & _).
  refine (proj1 (keeps_session (tables_kept s) user_id fuel _ _ _ _ Eb _)).
  - intros now1 now2 s1 name args H1.
    apply (ToolsFacts.tables_kept_trans s s1); [exact H1|].
    apply ToolsFacts.tables_kept_execute_tool.
  - apply ToolsFacts.tables_kept_refl.
Qed.

(** *** Turns without a tool call *)

(** X11. When the model answers the opening transcript without asking for a
    tool, [process_message] returns that answer with an empty trace, also
    with no fuel at all; an answer without text, or with the empty text, is
    replaced by "I processed your request.".  Nothing is written and the
    clock is not read. *)
Theorem answer_without_tools (fuel : nat) (s : Session) (k : nat)
    (user_id message : string) (history : list chat_message) (am : assistant_message) :
  chat_completions_create (opening_transcript SYSTEM_PROMPT message history) = inr am ->
  requested am = [] ->
  process_message' fuel s k user_id message history
  = Some (mk_reply (match content am with
                    | Some text => if String.eqb text "" then "I processed your request."
                                   else text
                    | None => "I processed your request."
                    end) [] None, s, k).
Proof.
  intros Em Hreq. unfold process_message, process_body, bind, call_model, lift.
  change (todo_agent.messages (initial_state SYSTEM_PROMPT s k message history))
    with (opening_transcript SYSTEM_PROMPT message history).
  rewrite Em, while_tool_calls_done by exact Hreq. reflexivity.
Qed.

(** X12. When the first call of the model raises [e], [process_message]
    returns the text that embeds [e] and the error [e], with an empty trace:
    no tool has run, nothing is written and the clock is not read. *)
Theorem model_down_at_once (fuel : nat) (s : Session) (k : nat)
    (user_id message : string) (history : list chat_message) (e : exn) :
  chat_completions_create (opening_transcript SYSTEM_PROMPT message history) = inl e ->
  process_message' fuel s k user_id message history
  = Some (mk_reply ("I encountered an error: " ++ e ++ ". Please try again.")%string
                   [] (Some e), s, k).
Proof.
  intros Em. unfold process_message, process_body, bind, call_model, lift.
  change (todo_agent.messages (initial_state SYSTEM_PROMPT s k message history))
    with (opening_transcript SYSTEM_PROMPT message history).
  rewrite Em. reflexivity.
Qed.

(** *** The trace, the session and the transcript *)

(** X13. Whenever [process_message] returns, with an answer of the model or
    with an error, the trace of its reply is the record of the tool calls
    that ran: running them again in that order from the session and the
    clock of the start gives the session and the clock returned, and each
    call gives the result the trace holds. *)
Theorem trace_is_faithful (fuel : nat) (s : Session) (k : nat)
    (user_id message : string) (history : list chat_message)
    (r : reply) (s' : Session) (k' : nat) :
  process_message' fuel s k user_id message history = Some (r, s', k') ->
  replay isoformat utcnow user_id (reply_tool_calls r) s k
  = (s', k', map result (reply_tool_calls r)).
Proof.
  intros E.
  destruct (process_message_body _ _ _ _ _ _ _ _ _ E) as (o & st & Eb & <- & <- & -> & _).
  apply (keeps_process_body isoformat utcnow chat_completions_create json_loads
           json_dumps user_id s k fuel _ _ _ Eb).
  reflexivity.
Qed.

Lemma tool_outputs_app (l1 l2 : list chat_message) :
  tool_outputs (l1 ++ l2) = tool_outputs l1 ++ tool_outputs l2.
Proof.
  induction l1 as [|m l1 IH]; simpl.
  - reflexivity.
  - destruct m; simpl; rewrite IH; reflexivity.
Qed.

(** X14. The model is shown what the trace holds.  When the history carries
    no tool output, the tool outputs on the transcript are at every return of
    the loop, in order, the serialised results of the recorded calls: one
    output for each call that ran, and none for a call that did not. *)
Theorem transcript_shows_the_trace (fuel : nat) (s : Session) (k : nat)
    (user_id message : string) (history : list chat_message)
    (o : outcome assistant_message) (st : state) :
  tool_outputs history = [] ->
  process_body' fuel user_id (initial_state SYSTEM_PROMPT s k message history) = (o, st) ->
  map snd (tool_outputs (todo_agent.messages st))
  = map (fun r => json_dumps (result r)) (tool_calls_made st).
Proof.
  intros Hh E.
  refine (proj1 (keeps_process_body_of
                   (fun st => map snd (tool_outputs (todo_agent.messages st))
                              = map (fun r => json_dumps (result r)) (tool_calls_made st))
                   user_id fuel _ _ _ _ _ E _)).
  - intros call st0 o0 st1 E0 HP. split; [|auto]. rewrite run_tool_call_eq in E0.
    destruct (json_loads (call_arguments call)) as [e|args].
    + injection E0 as <- <-. exact HP.
    + destruct (_execute_tool isoformat _ _ _ _ _ _) as [answer session'].
      injection E0 as <- <-. simpl.
      rewrite tool_outputs_app, !map_app, HP. reflexivity.
  - intros text calls st0 HP. unfold said. simpl.
    rewrite tool_outputs_app. simpl. rewrite app_nil_r. exact HP.
  - simpl. rewrite tool_outputs_app, Hh. reflexivity.
Qed.

(** *** A batch of tool calls *)


End Agent.

Lemma turn_leaves_other_users_witness :
  wf Sample.shared /\ "alice" <> "bob"
  /\ process_message "You are a helpful todo assistant." Sample.isoformat
       Sample.utcnow Sample.add_then_answer Sample.json_loads Sample.json_dumps
       3 Sample.shared 0 "alice" "Add a task to buy milk" []
     = Some (mk_reply "Added."
               [mk_call_record "add_task"
                  (mk_tool_args (Some "buy milk") None None None)
                  (created 4 "buy milk")]
               None,
             mkSession [Sample.milk; Sample.eggs; Sample.rent;
                        Task.mk 4 "alice" "buy milk" None false 0 1] 5 [] 1 [] 1,
             2%nat)
  /\ owned "bob" (mkSession [Sample.milk; Sample.eggs; Sample.rent;
                             Task.mk 4 "alice" "buy milk" None false 0 1] 5 [] 1 [] 1)
     = owned "bob" Sample.shared.
Proof.
  assert (wf Sample.shared) as H1 by wf_by_computation.
  assert ("alice" <> "bob") as H2 by discriminate.
  split; [exact H1|]. split; [exact H2|].
  assert (process_message "You are a helpful todo assistant." Sample.isoformat
            Sample.utcnow Sample.add_then_answer Sample.json_loads Sample.json_dumps
            3 Sample.shared 0 "alice" "Add a task to buy milk" []
          = Some (mk_reply "Added."
                    [mk_call_record "add_task"
                       (mk_tool_args (Some "buy milk") None None None)
                       (created 4 "buy milk")]
                    None,
                  mkSession [Sample.milk; Sample.eggs; Sample.rent;
                             Task.mk 4 "alice" "buy milk" None false 0 1] 5 [] 1 [] 1,
                  2%nat)) as E by reflexivity.
  split; [exact E|].
  apply (turn_leaves_other_users _ _ _ _ _ _ _ _ _ "alice" "bob" _ _ _ _ _ H1 H2 E).
Defined.


(** The model answers with an empty text. *)
Lemma answer_without_tools_witness :
  Sample.silent (opening_transcript "You are a helpful todo assistant." "Hello" [])
  = inr (mk_assistant_message (Some "") None)
  /\ requested (mk_assistant_message (Some "") None) = []
  /\ process_message "You are a helpful todo assistant." Sample.isoformat Sample.utcnow
       Sample.silent Sample.json_loads Sample.json_dumps
       0 Sample.shared 7 "alice" "Hello" []
     = Some (mk_reply "I processed your request." [] None, Sample.shared, 7%nat).
Proof.
  assert (Sample.silent (opening_transcript "You are a helpful todo assistant." "Hello" [])
          = inr (mk_assistant_message (Some "") None)) as H1 by reflexivity.
  assert (requested (mk_assistant_message (Some "") None) = []) as H2 by reflexivity.
  repeat (split; [assumption|]).
  apply (answer_without_tools "You are a helpful todo assistant." Sample.isoformat
           Sample.utcnow Sample.silent Sample.json_loads Sample.json_dumps
           0 Sample.shared 7 "alice" "Hello" [] _ H1 H2).
Defined.

Lemma model_down_at_once_witness :
  Sample.unreachable (opening_transcript "You are a helpful todo assistant." "Hello" [])
  = inl "connection refused"
  /\ process_message "You are a helpful todo assistant." Sample.isoformat Sample.utcnow
       Sample.unreachable Sample.json_loads Sample.json_dumps
       5 Sample.shared 7 "alice" "Hello" []
     = Some (mk_reply "I encountered an error: connection refused. Please try again."
               [] (Some "connection refused"),
             Sample.shared, 7%nat).
Proof.
  assert (Sample.unreachable
            (opening_transcript "You are a helpful todo assistant." "Hello" [])
          = inl "connection refused") as H1 by reflexivity.
  split; [exact H1|].
  apply (model_down_at_once "You are a helpful todo assistant." Sample.isoformat
           Sample.utcnow Sample.unreachable Sample.json_loads Sample.json_dumps
           5 Sample.shared 7 "alice" "Hello" [] _ H1).
Defined.

(** A turn with one [add_task]: the trace replays to the session returned. *)
Lemma trace_is_faithful_witness :
  process_message "You are a helpful todo assistant." Sample.isoformat Sample.utcnow
    Sample.add_then_answer Sample.json_loads Sample.json_dumps
    3 Sample.shared 0 "alice" "Add a task to buy milk" []
  = Some (mk_reply "Added."
            [mk_call_record "add_task" (mk_tool_args (Some "buy milk") None None None)
               (created 4 "buy milk")]
            None,
          mkSession [Sample.milk; Sample.eggs; Sample.rent;
                     Task.mk 4 "alice" "buy milk" None false 0 1] 5 [] 1 [] 1,
          2%nat)
  /\ replay Sample.isoformat Sample.utcnow "alice"
       [mk_call_record "add_task" (mk_tool_args (Some "buy milk") None None None)
          (created 4 "buy milk")]
       Sample.shared 0
     = (mkSession [Sample.milk; Sample.eggs; Sample.rent;
                   Task.mk 4 "alice" "buy milk" None false 0 1] 5 [] 1 [] 1,
        2%nat, [created 4 "buy milk"]).
Proof.
  assert (process_message "You are a helpful todo assistant." Sample.isoformat
            Sample.utcnow Sample.add_then_answer Sample.json_loads Sample.json_dumps
            3 Sample.shared 0 "alice" "Add a task to buy milk" []
          = Some (mk_reply "Added."
                    [mk_call_record "add_task"
                       (mk_tool_args (Some "buy milk") None None None)
                       (created 4 "buy milk")]
                    None,
                  mkSession [Sample.milk; Sample.eggs; Sample.rent;
                             Task.mk 4 "alice" "buy milk" None false 0 1] 5 [] 1 [] 1,
                  2%nat)) as E by reflexivity.
  split; [exact E|].
  apply (trace_is_faithful "You are a helpful todo assistant." Sample.isoformat
           Sample.utcnow Sample.add_then_answer Sample.json_loads Sample.json_dumps
           3 Sample.shared 0 "alice" "Add a task to buy milk" [] _ _ _ E).
Defined.

Lemma transcript_shows_the_trace_witness :
  let r := process_body Sample.isoformat Sample.utcnow Sample.add_then_answer
             Sample.json_loads Sample.json_dumps 3 "alice"
             (initial_state "You are a helpful todo assistant." Sample.shared 0
                "Add a task to buy milk" []) in
  tool_outputs [] = []
  /\ r = (fst r, snd r)
  /\ map snd (tool_outputs (todo_agent.messages (snd r))) = ["{...}"].
Proof.
  intros r.
  assert (tool_outputs [] = []) as H1 by reflexivity.
  assert (r = (fst r, snd r)) as H2 by reflexivity.
  repeat (split; [assumption|]).
  apply (transcript_shows_the_trace "You are a helpful todo assistant." Sample.isoformat
           Sample.utcnow Sample.add_then_answer Sample.json_loads Sample.json_dumps
           3 Sample.shared 0 "alice" "Add a task to buy milk" [] (fst r) (snd r) H1 H2).
Defined.


End AgentFacts.

(** ** More on the conversation store *)

Module ConversationFacts.

Import ConversationService ConversationSpec.

(** *** The window of the history *)

Lemma StronglySorted_firstn {DB : Database}
    {A : Type} (R : A -> A -> Prop) (n : nat) (l : list A) :
  StronglySorted R l -> StronglySorted R (firstn n l).
Proof.
  intros H. revert n. induction H as [|a l Hl IH Ha]; intros [|n]; simpl;
    try constructor.
  - apply IH.
  - rewrite Forall_forall in *. intros x Hx. apply Ha.
    apply (In_nth _ _ a) in Hx. destruct Hx as (i & Hi & <-).
    rewrite length_firstn in Hi. rewrite nth_firstn.
    destruct (Nat.ltb_spec i n); [|lia]. apply nth_In. lia.
Qed.

Lemma In_firstn {DB : Database} {A : Type} (n : nat) (l : list A) (x : A) :
  In x (firstn n l) -> In x l.
Proof.
  intros H. rewrite <- (firstn_skipn n l). apply in_or_app. left. exact H.
Qed.

(** X16. The history handed to the model has at most [limit] entries; each
    is a message of that conversation with the role "user" or "assistant",
    given with its role and content; and the messages read for it are in
    creation order. *)
Theorem history_is_windowed {DB : Database} (s : Session) (conversation_id : Z) (limit : nat) :
  (List.length (get_message_history s conversation_id limit) <= limit)%nat
  /\ StronglySorted oldest_first (get_messages s conversation_id limit)
  /\ forall m, In m (get_message_history s conversation_id limit) ->
       exists msg,
         In msg (messages s)
         /\ Message.conversation_id msg = conversation_id
         /\ (Message.role msg = "user" \/ Message.role msg = "assistant")
         /\ m = RoleContent (Message.role msg) (Message.content msg).
Proof.
  split; [|split].
  - unfold get_message_history. rewrite length_map.
    eapply Nat.le_trans; [apply filter_length_le|].
    unfold get_messages. rewrite length_firstn. lia.
  - apply StronglySorted_firstn, in_creation_order_sorted.
  - intros m Hm. unfold get_message_history in Hm.
    apply in_map_iff in Hm. destruct Hm as (msg & <- & Hmsg).
    apply filter_In in Hmsg. destruct Hmsg as [Hin Hrole].
    apply In_firstn in Hin.
    apply (in_creation_order_In s conversation_id msg) in Hin. destruct Hin as [Hin Hc].
    exists msg. split; [exact Hin|]. split; [exact Hc|]. split; [|reflexivity].
    unfold model_role in Hrole. apply orb_true_iff in Hrole.
    destruct Hrole as [H|H]; apply String.eqb_eq in H; auto.
Qed.

(** *** Saving a message *)

Lemma insert_by_last {DB : Database} {A : Type} (le : A -> A -> bool) (x m : A) (l : list A) :
  le x m = true -> insert_by le x (l ++ [m]) = insert_by le x l ++ [m].
Proof.
  intros H. induction l as [|y l IH]; simpl.
  - rewrite H. reflexivity.
  - destruct (le x y); [reflexivity|]. rewrite IH. reflexivity.
Qed.

Lemma order_by_last {DB : Database} {A : Type} (le : A -> A -> bool) (m : A) (l : list A) :
  (forall x, In x l -> le x m = true) -> order_by le (l ++ [m]) = order_by le l ++ [m].
Proof.
  induction l as [|x l IH]; intros H; simpl.
  - reflexivity.
  - fold (order_by le (l ++ [m])). fold (order_by le l).
    rewrite IH by (intros y Hy; apply H; right; exact Hy).
    apply insert_by_last. apply H. left. reflexivity.
Qed.

(** X17. A message saved at a clock reading that is not before the messages
    of its conversation comes last in that conversation and leaves the order
    of every other conversation alone.  While the conversation still fits the
    window, a saved "user" or "assistant" message is the new last entry of
    the history. *)
Theorem add_message_comes_last {DB : Database} (now : Z) (s : Session) (conversation_id : Z)
    (user_id role content : string) (limit : nat) :
  (forall m, In m (messages s) -> Message.conversation_id m = conversation_id ->
             Message.created_at m <= now) ->
  let msg := Message.mk (messages_seq s) user_id conversation_id role content now in
  let s' := snd (add_message now s conversation_id user_id role content) in
  fst (add_message now s conversation_id user_id role content) = msg
  /\ in_creation_order s' conversation_id = in_creation_order s conversation_id ++ [msg]
  /\ (forall other, other <> conversation_id ->
                    in_creation_order s' other = in_creation_order s other)
  /\ ((List.length (in_creation_order s conversation_id) < limit)%nat ->
      model_role role = true ->
      get_message_history s' conversation_id limit
      = get_message_history s conversation_id limit ++ [RoleContent role content]).
Proof.
  intros Hnow msg s'.
  assert (in_creation_order s' conversation_id
          = in_creation_order s conversation_id ++ [msg]) as Hlast.
  { unfold in_creation_order, s'. simpl. rewrite filter_app. simpl.
    rewrite Z.eqb_refl. apply order_by_last.
    intros x Hx. apply filter_In in Hx. destruct Hx as [Hx Hc].
    apply Z.eqb_eq in Hc. apply Z.leb_le. simpl. apply Hnow; assumption. }
  split; [reflexivity|]. split; [exact Hlast|]. split.
  - intros other Hne. unfold in_creation_order, s'. simpl. rewrite filter_app. simpl.
    apply not_eq_sym in Hne. apply Z.eqb_neq in Hne. rewrite Hne, app_nil_r. reflexivity.
  - intros Hfit Hrole.
    rewrite !get_message_history_window, Hlast.
    rewrite !firstn_all2 by (rewrite ?length_app; simpl; lia).
    rewrite filter_app, map_app. simpl. rewrite Hrole. reflexivity.
Qed.

Lemma add_message_comes_last_witness :
  (forall m, In m (messages Sample.talk) -> Message.conversation_id m = 1 ->
             Message.created_at m <= 4)
  /\ in_creation_order (snd (add_message 4 Sample.talk 1 "alice" "assistant" "fourth")) 1
     = [Sample.m1; Sample.m2; Sample.m3; Message.mk 4 "alice" 1 "assistant" "fourth" 4].
Proof.
  assert (forall m, In m (messages Sample.talk) -> Message.conversation_id m = 1 ->
                    Message.created_at m <= 4) as H.
  { intros m [<-|[<-|[<-|[]]]] _; simpl; lia. }
  split; [exact H|].
  apply (add_message_comes_last 4 Sample.talk 1 "alice" "assistant" "fourth" 20 H).
Defined.

(** X18. Saving a message gives it the next id of the message table, which
    no stored message carries, keeps the primary keys in order and writes to
    no other table. *)
Theorem add_message_keeps_keys {DB : Database} (now : Z) (s : Session) (conversation_id : Z)
    (user_id role content : string) :
  wf s ->
  let r := add_message now s conversation_id user_id role content in
  Message.id (fst r) = messages_seq s
  /\ (forall m, In m (messages s) -> Message.id m <> Message.id (fst r))
  /\ messages (snd r) = messages s ++ [fst r]
  /\ tasks (snd r) = tasks s
  /\ conversations (snd r) = conversations s
  /\ wf (snd r).
Proof.
  intros (Ht & Hc & Hm & Hft & Hfc) r. subst r. simpl.
  split; [reflexivity|]. split.
  - intros m Hin E. destruct Hm as [_ Hlt]. rewrite Forall_forall in Hlt.
    specialize (Hlt (Message.id m) (in_map _ _ _ Hin)). lia.
  - repeat (split; [reflexivity|]).
    unfold wf. simpl. rewrite map_app. simpl.
    split; [exact Ht|]. split; [exact Hc|]. split; [apply keys_ok_snoc, Hm|].
    split; assumption.
Qed.

Lemma add_message_keeps_keys_witness :
  wf Sample.talk
  /\ Message.id (fst (add_message 4 Sample.talk 1 "alice" "user" "fourth")) = 4.
Proof.
  assert (wf Sample.talk) as H by wf_by_computation.
  split; [exact H|].
  apply (add_message_keeps_keys 4 Sample.talk 1 "alice" "user" "fourth" H).
Defined.

(** *** Conversations *)

Lemma get_conversation_found {DB : Database} (s : Session) (c : Conversation.t) :
  wf s -> In c (conversations s) ->
  get_conversation s (Conversation.id c) (Conversation.user_id c) = inr (Some c).
Proof.
  intros Hwf Hin. unfold get_conversation.
  rewrite (stored_conversation_fits s c Hwf Hin).
  destruct Hwf as (_ & (Hnd & _) & _).
  rewrite filter_andb, (filter_key_unique Conversation.id) by assumption.
  simpl. rewrite String.eqb_refl. reflexivity.
Qed.

(** X19. A conversation of the caller's is given back as it is, and nothing
    is created, when it is asked for by an id other than 0.  An id of 0 counts
    as no id: a new conversation is created even when conversation 0 exists
    and is the caller's, and the call raises when the key column does not
    hold the next key. *)
Theorem own_conversation_is_reused {DB : Database}
    (now1 now2 : Z) (s : Session) (c : Conversation.t) :
  wf s -> In c (conversations s) ->
  get_or_create_conversation now1 now2 s (Some (Conversation.id c))
    (Conversation.user_id c)
  = if Z.eqb (Conversation.id c) 0
    then match key_error (conversations_seq s) with
         | Some e => inl e
         | None =>
             inr (Conversation.mk (conversations_seq s) (Conversation.user_id c)
                                  now1 now2,
                  with_conversations
                    (conversations s
                     ++ [Conversation.mk (conversations_seq s) (Conversation.user_id c)
                                         now1 now2])
                    (conversations_seq s + 1) s)
         end
    else inr (c, s).
Proof.
  intros Hwf Hin. unfold get_or_create_conversation.
  destruct (Z.eqb (Conversation.id c) 0); [reflexivity|].
  rewrite (get_conversation_found s c Hwf Hin). reflexivity.
Qed.

Lemma own_conversation_is_reused_witness :
  wf Sample.talk
  /\ In (Conversation.mk 1 "alice" 1 3) (conversations Sample.talk)
  /\ get_or_create_conversation 5 6 Sample.talk (Some 1) "alice"
     = inr (Conversation.mk 1 "alice" 1 3, Sample.talk).
Proof.
  assert (wf Sample.talk) as H1 by wf_by_computation.
  assert (In (Conversation.mk 1 "alice" 1 3) (conversations Sample.talk)) as H2
    by (left; reflexivity).
  repeat (split; [assumption|]).
  apply (own_conversation_is_reused 5 6 Sample.talk (Conversation.mk 1 "alice" 1 3) H1 H2).
Defined.

Lemma create_conversation_result {DB : Database} (now1 now2 : Z) (s s' : Session)
    (u : string) (c : Conversation.t) :
  create_conversation now1 now2 s u = inr (c, s') ->
  c = Conversation.mk (conversations_seq s) u now1 now2
  /\ s' = with_conversations (conversations s ++ [c]) (conversations_seq s + 1) s
  /\ key_error (conversations_seq s) = None.
Proof.
  unfold create_conversation.
  destruct (key_error (conversations_seq s)); [discriminate|].
  intros E. injection E as <- <-. auto.
Qed.

(** What a call that returns has returned: a conversation of the caller's
    that is stored under a key the column holds, with the task and message
    tables as they were. *)
Lemma get_or_create_conversation_result {DB : Database} (now1 now2 : Z) (s : Session)
    (conversation_id : option Z) (u : string) (c : Conversation.t) (s' : Session) :
  get_or_create_conversation now1 now2 s conversation_id u = inr (c, s') ->
  Conversation.user_id c = u
  /\ In c (conversations s')
  /\ tasks s' = tasks s /\ tasks_seq s' = tasks_seq s
  /\ messages s' = messages s /\ messages_seq s' = messages_seq s
  /\ (wf s -> wf s').
Proof.
  unfold get_or_create_conversation.
  assert (create_conversation now1 now2 s u = inr (c, s') ->
          Conversation.user_id c = u
          /\ In c (conversations s')
          /\ tasks s' = tasks s /\ tasks_seq s' = tasks_seq s
          /\ messages s' = messages s /\ messages_seq s' = messages_seq s
          /\ (wf s -> wf s')) as Hnew.
  { intros E.
    destruct (create_conversation_result now1 now2 s s' u c E) as (Hc & Hs & _).
    split; [rewrite Hc; reflexivity|].
    split; [rewrite Hs; simpl; apply in_or_app; right; left; reflexivity|].
    rewrite Hs. simpl. repeat (split; [reflexivity|]).
    intros Hwf. rewrite <- Hs.
    apply (wf_create_conversation now1 now2 s s' u c Hwf E). }
  assert (forall i, match get_conversation s i u with
                    | inl e => inl e
                    | inr (Some conversation) => inr (conversation, s)
                    | inr None => create_conversation now1 now2 s u
                    end = inr (c, s') ->
                    Conversation.user_id c = u
                    /\ In c (conversations s')
                    /\ tasks s' = tasks s /\ tasks_seq s' = tasks_seq s
                    /\ messages s' = messages s /\ messages_seq s' = messages_seq s
                    /\ (wf s -> wf s')) as Hget.
  { intros i. unfold get_conversation.
    destruct (key_error i); [discriminate|].
    destruct (filter _ (conversations s)) as [|x [|y l]] eqn:Ef; simpl.
    - exact Hnew.
    - intros E. injection E as <- <-.
      assert (In x (filter (fun c => Z.eqb (Conversation.id c) i
                                      && String.eqb (Conversation.user_id c) u)
                           (conversations s))) as Hx by (rewrite Ef; left; reflexivity).
      apply filter_In in Hx. destruct Hx as [Hin Hx].
      apply andb_true_iff in Hx. destruct Hx as [_ Hx]. apply String.eqb_eq in Hx.
      split; [exact Hx|]. split; [exact Hin|].
      repeat (split; [reflexivity|]). auto.
    - discriminate. }
  destruct conversation_id as [i|]; [|exact Hnew].
  destruct (Z.eqb i 0); [exact Hnew|apply Hget].
Qed.

(** The call returns for a conversation id that is absent, zero or one the
    key column holds, while the column holds the next key. *)
Lemma get_or_create_conversation_succeeds {DB : Database} (now1 now2 : Z) (s : Session)
    (conversation_id : option Z) (u : string) :
  wf s ->
  (forall i, conversation_id = Some i -> i <> 0 -> key_error i = None) ->
  key_error (conversations_seq s) = None ->
  exists c s', get_or_create_conversation now1 now2 s conversation_id u = inr (c, s').
Proof.
  intros Hwf Hfit Hnext. unfold get_or_create_conversation.
  assert (exists c s', create_conversation now1 now2 s u = inr (c, s')) as Hnew.
  { unfold create_conversation. rewrite Hnext. eexists _, _. reflexivity. }
  destruct conversation_id as [i|]; [|exact Hnew].
  destruct (Z.eqb i 0) eqn:Ez; [exact Hnew|].
  apply Z.eqb_neq in Ez.
  destruct (get_conversation_cases s i u Hwf)
    as [(e & Ek & _)|[(_ & -> & _)|(x & -> & _)]].
  - rewrite (Hfit i eq_refl Ez) in Ek. discriminate Ek.
  - exact Hnew.
  - eexists _, _. reflexivity.
Qed.

(** X20. Refreshing the timestamp of a stored conversation writes the clock
    into its [updated_at] and changes nothing else: its id, owner and
    creation time stay, every other conversation stays, the task and message
    tables are not written and the primary keys stay in order. *)
Theorem timestamp_changes_one_field {DB : Database}
    (now : Z) (s : Session) (c : Conversation.t) :
  wf s -> In c (conversations s) ->
  let c' := Conversation.mk (Conversation.id c) (Conversation.user_id c)
              (Conversation.created_at c) now in
  let s' := update_conversation_timestamp now s c in
  conversations s'
  = map (fun y => if Z.eqb (Conversation.id y) (Conversation.id c) then c' else y)
        (conversations s)
  /\ In c' (conversations s')
  /\ (forall y, In y (conversations s) -> y <> c -> In y (conversations s'))
  /\ tasks s' = tasks s
  /\ messages s' = messages s
  /\ wf s'.
Proof.
  intros Hwf Hin c' s'.
  pose proof (proj1 (proj1 (proj2 Hwf))) as Hnd.
  assert (conversations s'
          = map (fun y => if Z.eqb (Conversation.id y) (Conversation.id c) then c' else y)
                (conversations s)) as E.
  { unfold s', update_conversation_timestamp. simpl. apply map_ext_in. intros y Hy.
    destruct (Z.eqb (Conversation.id y) (Conversation.id c)) eqn:Ey; [|reflexivity].
    apply Z.eqb_eq in Ey.
    rewrite (key_injective Conversation.id (conversations s) c y Hnd Hin Hy Ey).
    reflexivity. }
  split; [exact E|]. split; [|split; [|split; [reflexivity|split; [reflexivity|]]]].
  - rewrite E. apply in_map_iff. exists c. rewrite Z.eqb_refl. auto.
  - intros y Hy Hne. rewrite E. apply in_map_iff. exists y. split; [|exact Hy].
    destruct (Z.eqb (Conversation.id y) (Conversation.id c)) eqn:Ey; [|reflexivity].
    apply Z.eqb_eq in Ey. exfalso. apply Hne.
    apply (key_injective Conversation.id (conversations s)); assumption.
  - destruct Hwf as (Ht & Hc & Hm & Hft & Hfc). unfold wf.
    assert (map Conversation.id (conversations s')
            = map Conversation.id (conversations s)) as Eid.
    { rewrite E, map_map. apply map_ext.
      intros y. destruct (Z.eqb (Conversation.id y) (Conversation.id c)) eqn:Ey;
        [|reflexivity].
      apply Z.eqb_eq in Ey. symmetry. exact Ey. }
    rewrite Eid. repeat (split; try assumption).
Qed.

Lemma timestamp_changes_one_field_witness :
  wf Sample.talk
  /\ In (Conversation.mk 1 "alice" 1 3) (conversations Sample.talk)
  /\ conversations (update_conversation_timestamp 9 Sample.talk
                      (Conversation.mk 1 "alice" 1 3))
     = [Conversation.mk 1 "alice" 1 9].
Proof.
  assert (wf Sample.talk) as H1 by wf_by_computation.
  assert (In (Conversation.mk 1 "alice" 1 3) (conversations Sample.talk)) as H2
    by (left; reflexivity).
  repeat (split; [assumption|]).
  apply (timestamp_changes_one_field 9 Sample.talk (Conversation.mk 1 "alice" 1 3) H1 H2).
Defined.

End ConversationFacts.

(** ** The routes *)

Module RoutesFacts.

Import routes.

Section Routes.

Context {DB : Database}.

Variable SYSTEM_PROMPT : string.
Variable isoformat : Z -> string.
Variable utcnow : nat -> Z.
Variable chat_completions_create
  : list chat_message -> exn + todo_agent.assistant_message.
Variable json_loads : string -> exn + todo_agent.tool_args.
Variable json_dumps : value -> string.
Variable get_agent : exn + unit.

Abbreviation chat' :=
  (chat SYSTEM_PROMPT isoformat utcnow chat_completions_create json_loads json_dumps
        get_agent).
Abbreviation process_message' :=
  (todo_agent.process_message SYSTEM_PROMPT isoformat utcnow chat_completions_create
                              json_loads json_dumps).

(** *** Reading conversations *)

(** X21. [list_conversations] gives one dictionary for each of the
    caller's conversations and for no other, the one updated last first, and
    each dictionary shows the id and the two times of its conversation. *)
Theorem list_conversations_latest_first (s : Session) (user_id : string) :
  let rows := query_conversations s user_id in
  list_conversations isoformat s user_id = map (conversation_item isoformat) rows
  /\ Forall2 (shows_conversation isoformat) rows
             (list_conversations isoformat s user_id)
  /\ StronglySorted latest_first rows
  /\ Permutation rows (owned_conversations user_id s)
  /\ forall c, In c rows
               <-> In c (conversations s) /\ Conversation.user_id c = user_id.
Proof.
  intros rows. subst rows.
  split; [reflexivity|]. split; [|split; [|split]].
  - unfold list_conversations.
    induction (query_conversations s user_id) as [|c l IH]; simpl; constructor.
    + unfold shows_conversation. repeat split.
    + exact IH.
  - unfold query_conversations. eapply StronglySorted_weaken.
    2: { apply order_by_sorted.
         - intros a b H. apply Z.leb_gt in H. apply Z.leb_le. lia.
         - intros a b c H1 H2. apply Z.leb_le in H1, H2. apply Z.leb_le. lia. }
    intros a b H. apply Z.leb_le in H. exact H.
  - apply order_by_perm.
  - intros c. unfold query_conversations.
    split.
    + intros H. apply order_by_In, filter_In in H. destruct H as [H1 H2].
      apply String.eqb_eq in H2. auto.
    + intros [H1 H2]. apply order_by_In, filter_In. split; [exact H1|].
      apply String.eqb_eq, H2.
Qed.

(** X22. With the primary keys in order, [get_conversation_messages] raises
    for a conversation id the key column does not hold.  For any other id it
    answers 404 "Conversation not found" unless the conversation exists and
    is the caller's, and then gives one dictionary for each of its first
    hundred messages in creation order, each showing the id, the role, the
    content and the time of its message. *)
Theorem conversation_messages_for_owner_only (s : Session) (user_id : string)
    (conversation_id : Z) :
  wf s ->
  let rows := firstn 100 (in_creation_order s conversation_id) in
  get_conversation_messages isoformat s user_id conversation_id
  = match key_error conversation_id with
    | Some e => inl e
    | None =>
        if existsb (fun c => Z.eqb (Conversation.id c) conversation_id
                             && String.eqb (Conversation.user_id c) user_id)
                   (conversations s)
        then inr (Ok (map (message_item isoformat) rows))
        else inr (HTTPException 404 "Conversation not found")
    end
  /\ forall answer,
       get_conversation_messages isoformat s user_id conversation_id = inr (Ok answer) ->
       Forall2 (shows_message isoformat) rows answer
       /\ exists c, In c (conversations s) /\ Conversation.id c = conversation_id
                    /\ Conversation.user_id c = user_id.
Proof.
  intros Hwf rows.
  assert (Forall2 (shows_message isoformat) rows (map (message_item isoformat) rows))
    as Hshow.
  { induction rows as [|m l IH]; simpl; constructor.
    - unfold shows_message. repeat split.
    - exact IH. }
  unfold get_conversation_messages.
  destruct (ConversationSpec.get_conversation_cases s conversation_id user_id Hwf)
    as [(e & Ek & ->)|[(Ek & -> & Hnone)|(x & -> & Hx & Hi & Hu)]].
  - rewrite Ek. split; [reflexivity|]. intros answer H. discriminate H.
  - rewrite Ek. split; [|intros answer H; discriminate H].
    destruct (existsb _ (conversations s)) eqn:Ex; [exfalso|reflexivity].
    apply existsb_exists in Ex. destruct Ex as (c & Hc & Hp).
    apply andb_true_iff in Hp. destruct Hp as [Hi Hu].
    apply Z.eqb_eq in Hi. apply String.eqb_eq in Hu.
    exact (Hnone c Hc Hi Hu).
  - pose proof (ConversationSpec.stored_conversation_fits s x Hwf Hx) as Ek.
    rewrite Hi in Ek. rewrite Ek. split.
    + destruct (existsb _ (conversations s)) eqn:Ex; [reflexivity|exfalso].
      apply not_true_iff_false in Ex. apply Ex. apply existsb_exists.
      exists x. split; [exact Hx|].
      apply andb_true_iff. split; [apply Z.eqb_eq, Hi|apply String.eqb_eq, Hu].
    + intros answer H. injection H as <-.
      split; [exact Hshow|]. exists x. auto.
Qed.

(** *** A chat turn *)

(** The stages of [chat] that follow the conversation. *)
Lemma chat_after_conversation (fuel : nat) (s : Session) (k : nat) (user_id : string)
    (request : ChatRequest) (conv : Conversation.t) (s1 : Session) :
  ConversationService.get_or_create_conversation (utcnow k) (utcnow (S k)) s
    (request_conversation_id request) user_id = inr (conv, s1) ->
  let said_by role text t seq :=
    Message.mk seq user_id (Conversation.id conv) role text t in
  let s2 := with_messages
              (messages s1
               ++ [said_by "user" (message request) (utcnow (S (S k))) (messages_seq s1)])
              (messages_seq s1 + 1) s1 in
  chat' fuel s k user_id request
  = match get_agent with
    | inl e => Some (server_error e, s2, S (S (S k)))
    | inr _ =>
        match process_message' fuel s2 (S (S (S k))) user_id (message request)
                (ConversationService.get_message_history s1 (Conversation.id conv) 20)
        with
        | None => None
        | Some (result, s3, k3) =>
            Some (Ok (mk_ChatResponse (Conversation.id conv)
                        (todo_agent.response result)
                        (todo_agent.reply_tool_calls result)),
                  ConversationService.update_conversation_timestamp (utcnow (S k3))
                    (with_messages
                       (messages s3
                        ++ [said_by "assistant" (todo_agent.response result)
                                    (utcnow k3) (messages_seq s3)])
                       (messages_seq s3 + 1) s3)
                    conv,
                  S (S k3))
        end
    end.
Proof.
  intros Eg said_by s2. unfold chat. rewrite Eg.
  unfold ConversationService.add_user_message, ConversationService.add_assistant_message,
    ConversationService.add_message, agents.run_agent.
  cbv beta iota zeta.
  destruct get_agent as [e|u]; [reflexivity|].
  unfold s2, said_by.
  destruct (process_message' fuel _ _ user_id (message request) _)
    as [[[result s3] k3]|]; reflexivity.
Qed.

(** X23. A chat turn that is answered has saved the exchange.  After it the
    conversation table holds one row under the conversation id that is
    returned, and that row is the caller's; the message table is the one
    before the turn followed by the message of the user and then the reply
    that is returned, both under the caller and under that conversation id,
    the reply at the last clock reading but one of the turn. *)
Theorem chat_saves_the_exchange (fuel : nat) (s : Session) (k : nat) (user_id : string)
    (request : ChatRequest) (answer : ChatResponse) (s' : Session) (k' : nat) :
  wf s ->
  chat' fuel s k user_id request = Some (Ok answer, s', k') ->
  (exists c,
      In c (conversations s')
      /\ Conversation.id c = conversation_id answer
      /\ Conversation.user_id c = user_id
      /\ forall c', In c' (conversations s') ->
                    Conversation.id c' = conversation_id answer -> c' = c)
  /\ messages s'
     = messages s
       ++ [Message.mk (messages_seq s) user_id (conversation_id answer) "user"
                      (message request) (utcnow (S (S k)));
           Message.mk (messages_seq s + 1) user_id (conversation_id answer) "assistant"
                      (response answer) (utcnow (pred (pred k')))]
  /\ messages_seq s' = messages_seq s + 2.
Proof.
  intros Hwf E.
  destruct (ConversationService.get_or_create_conversation (utcnow k) (utcnow (S k)) s
              (request_conversation_id request) user_id) as [e|[conv s1]] eqn:Eg.
  { unfold chat in E. rewrite Eg in E. discriminate E. }
  rewrite (chat_after_conversation fuel s k user_id request conv s1 Eg) in E.
  destruct get_agent as [e|u]; [discriminate E|].
  destruct (process_message' fuel _ _ user_id (message request) _)
    as [[[result s3] k3]|] eqn:Ep; [|discriminate E].
  injection E as <- <- <-.
  destruct (ConversationFacts.get_or_create_conversation_result _ _ _ _ _ _ _ Eg)
    as (Hu & Hin & _ & _ & Hm & Hmq & Hwf1).
  specialize (Hwf1 Hwf).
  destruct (AgentFacts.turn_keeps_tables _ _ _ _ _ _ _ _ _ _ _ _ _ _ _ Ep)
    as (Kc & _ & Km & Kmq & _).
  simpl in Kc, Km, Kmq. simpl.
  split; [|rewrite Km, Kmq, Hm, Hmq, <- app_assoc; simpl; split; [reflexivity|lia]].
  set (c := Conversation.mk (Conversation.id conv) (Conversation.user_id conv)
              (Conversation.created_at conv) (utcnow (S k3))).
  exists c. rewrite Kc.
  split; [|split; [reflexivity|split; [exact Hu|]]].
  - apply in_map_iff. exists conv. rewrite Z.eqb_refl. split; [reflexivity|exact Hin].
  - intros c' Hc' Hid. apply in_map_iff in Hc'. destruct Hc' as (y & Hy & Hyin).
    destruct (Z.eqb (Conversation.id y) (Conversation.id conv)) eqn:Ey.
    + apply Z.eqb_eq in Ey.
      assert (y = conv) as ->.
      { apply (key_injective Conversation.id (conversations s1)); auto.
        apply Hwf1. }
      subst c'. reflexivity.
    + exfalso. apply Z.eqb_neq in Ey. apply Ey. subst c'. exact Hid.
Qed.

(** X24. When the agent cannot be built, a chat turn on a session with its
    keys in order, for a conversation id that is absent, zero or one the key
    column holds and while the column holds the next key, answers 500 with
    the text of the exception, and the message of the user stays saved: it
    is the one row added to the message table, under a conversation of the
    caller's, and no reply is saved. *)
Theorem chat_without_agent (fuel : nat) (s : Session) (k : nat) (user_id : string)
    (request : ChatRequest) (e : exn) :
  wf s ->
  (forall i, request_conversation_id request = Some i -> i <> 0 -> key_error i = None) ->
  key_error (conversations_seq s) = None ->
  get_agent = inl e ->
  exists conv s',
    chat' fuel s k user_id request
    = Some (HTTPException 500 ("An error occurred processing your message: " ++ e)%string,
            s', S (S (S k)))
    /\ Conversation.user_id conv = user_id
    /\ In conv (conversations s')
    /\ messages s'
       = messages s
         ++ [Message.mk (messages_seq s) user_id (Conversation.id conv) "user"
                        (message request) (utcnow (S (S k)))]
    /\ tasks s' = tasks s.
Proof.
  intros Hwf Hfit Hnext Ha.
  destruct (ConversationFacts.get_or_create_conversation_succeeds (utcnow k) (utcnow (S k))
              s (request_conversation_id request) user_id Hwf Hfit Hnext)
    as (conv & s1 & Eg).
  destruct (ConversationFacts.get_or_create_conversation_result _ _ _ _ _ _ _ Eg)
    as (Hu & Hin & Ht & _ & Hm & Hmq & _).
  rewrite (chat_after_conversation fuel s k user_id request conv s1 Eg), Ha.
  eexists conv, _. split; [reflexivity|]. simpl.
  split; [exact Hu|]. split; [exact Hin|]. rewrite Hm, Hmq, Ht. split; reflexivity.
Qed.

(** X25. When the agent is built and the model cannot be reached, a chat turn
    on a session with its keys in order, for a conversation id that is
    absent, zero or one the key column holds and while the column holds the
    next key, still answers 200: the reply is the text that embeds the
    exception, no tool call is reported, no task is written, and that text
    is saved as the reply of the assistant after the message of the user. *)
Theorem chat_with_model_down (fuel : nat) (s : Session) (k : nat) (user_id : string)
    (request : ChatRequest) (e : exn) :
  wf s ->
  (forall i, request_conversation_id request = Some i -> i <> 0 -> key_error i = None) ->
  key_error (conversations_seq s) = None ->
  get_agent = inr tt ->
  (forall transcript, chat_completions_create transcript = inl e) ->
  let sorry := ("I encountered an error: " ++ e ++ ". Please try again.")%string in
  exists conv s',
    chat' fuel s k user_id request
    = Some (Ok (mk_ChatResponse (Conversation.id conv) sorry []), s', S (S (S (S (S k)))))
    /\ Conversation.user_id conv = user_id
    /\ messages s'
       = messages s
         ++ [Message.mk (messages_seq s) user_id (Conversation.id conv) "user"
                        (message request) (utcnow (S (S k)));
             Message.mk (messages_seq s + 1) user_id (Conversation.id conv) "assistant"
                        sorry (utcnow (S (S (S k))))]
    /\ tasks s' = tasks s.
Proof.
  intros Hwf Hfit Hnext Ha Hdown sorry.
  destruct (ConversationFacts.get_or_create_conversation_succeeds (utcnow k) (utcnow (S k))
              s (request_conversation_id request) user_id Hwf Hfit Hnext)
    as (conv & s1 & Eg).
  destruct (ConversationFacts.get_or_create_conversation_result _ _ _ _ _ _ _ Eg)
    as (Hu & _ & Ht & _ & Hm & Hmq & _).
  rewrite (chat_after_conversation fuel s k user_id request conv s1 Eg), Ha.
  unfold todo_agent.process_message, todo_agent.process_body, todo_agent.bind,
    todo_agent.call_model, todo_agent.lift.
  rewrite Hdown.
  eexists conv, _. split; [reflexivity|]. simpl.
  split; [exact Hu|]. rewrite Hm, Hmq, Ht, <- app_assoc. split; reflexivity.
Qed.

End Routes.


(** Alice reads her conversation. *)
Lemma conversation_messages_for_owner_only_witness :
  wf Sample.talk
  /\ get_conversation_messages Sample.isoformat Sample.talk "alice" 1
     = inr (Ok [VDict [("id", VInt 1); ("role", VStr "user");
                       ("content", VStr "first"); ("created_at", VStr "t")];
                VDict [("id", VInt 2); ("role", VStr "assistant");
                       ("content", VStr "second"); ("created_at", VStr "t")];
                VDict [("id", VInt 3); ("role", VStr "user");
                       ("content", VStr "third"); ("created_at", VStr "t")]]).
Proof.
  assert (wf Sample.talk) as H by wf_by_computation.
  split; [exact H|].
  exact (proj1 (conversation_messages_for_owner_only Sample.isoformat Sample.talk
                  "alice" 1 H)).
Defined.

(** A first turn, in which the model adds a task and answers. *)
Lemma chat_saves_the_exchange_witness :
  wf empty_session
  /\ chat "You are a helpful todo assistant." Sample.isoformat Sample.utcnow
       Sample.add_then_answer Sample.json_loads Sample.json_dumps (inr tt)
       3 empty_session 0 "alice" Sample.hello
     = Some (Ok Sample.first_answer, Sample.after_first_turn, 7%nat)
  /\ (exists c,
         In c (conversations Sample.after_first_turn)
         /\ Conversation.id c = 1
         /\ Conversation.user_id c = "alice"
         /\ forall c', In c' (conversations Sample.after_first_turn) ->
                       Conversation.id c' = 1 -> c' = c)
  /\ messages Sample.after_first_turn
     = [Message.mk 1 "alice" 1 "user" "Add a task to buy milk" 2;
        Message.mk 2 "alice" 1 "assistant" "Added." 5]
  /\ messages_seq Sample.after_first_turn = 3.
Proof.
  assert (wf empty_session) as H by wf_by_computation.
  assert (chat "You are a helpful todo assistant." Sample.isoformat Sample.utcnow
            Sample.add_then_answer Sample.json_loads Sample.json_dumps (inr tt)
            3 empty_session 0 "alice" Sample.hello
          = Some (Ok Sample.first_answer, Sample.after_first_turn, 7%nat)) as E
    by reflexivity.
  split; [exact H|]. split; [exact E|].
  exact (chat_saves_the_exchange "You are a helpful todo assistant." Sample.isoformat
           Sample.utcnow Sample.add_then_answer Sample.json_loads Sample.json_dumps
           (inr tt) 3 empty_session 0 "alice" Sample.hello _ _ _ H E).
Defined.

Lemma chat_without_agent_witness :
  wf empty_session
  /\ (forall i, request_conversation_id Sample.hello = Some i -> i <> 0 ->
                key_error i = None)
  /\ key_error (conversations_seq empty_session) = None
  /\ exists conv s',
       chat "You are a helpful todo assistant." Sample.isoformat Sample.utcnow
         Sample.add_then_answer Sample.json_loads Sample.json_dumps
         (inl "OPENROUTER_API_KEY is not set") 3 empty_session 0 "alice" Sample.hello
       = Some (HTTPException 500
                 "An error occurred processing your message: OPENROUTER_API_KEY is not set",
               s', 3%nat)
       /\ messages s'
          = [Message.mk 1 "alice" (Conversation.id conv) "user"
                        "Add a task to buy milk" 2].
Proof.
  assert (wf empty_session) as H by wf_by_computation.
  assert (forall i, request_conversation_id Sample.hello = Some i -> i <> 0 ->
                    key_error i = None) as Hfit by (intros i E; discriminate E).
  assert (key_error (conversations_seq empty_session) = None) as Hnext by reflexivity.
  repeat (split; [assumption|]).
  destruct (chat_without_agent "You are a helpful todo assistant." Sample.isoformat
              Sample.utcnow Sample.add_then_answer Sample.json_loads Sample.json_dumps
              (inl "OPENROUTER_API_KEY is not set") 3 empty_session 0 "alice"
              Sample.hello _ H Hfit Hnext eq_refl)
    as (conv & s' & E & _ & _ & Hm & _).
  exists conv, s'. split; [exact E|exact Hm].
Defined.

Lemma chat_with_model_down_witness :
  wf empty_session
  /\ (forall i, request_conversation_id Sample.hello = Some i -> i <> 0 ->
                key_error i = None)
  /\ key_error (conversations_seq empty_session) = None
  /\ (forall transcript, Sample.unreachable transcript = inl "connection refused")
  /\ exists conv s',
       chat "You are a helpful todo assistant." Sample.isoformat Sample.utcnow
         Sample.unreachable Sample.json_loads Sample.json_dumps (inr tt)
         3 empty_session 0 "alice" Sample.hello
       = Some (Ok (mk_ChatResponse (Conversation.id conv)
                     "I encountered an error: connection refused. Please try again." []),
               s', 5%nat)
       /\ tasks s' = [].
Proof.
  assert (wf empty_session) as H1 by wf_by_computation.
  assert (forall i, request_conversation_id Sample.hello = Some i -> i <> 0 ->
                    key_error i = None) as Hfit by (intros i E; discriminate E).
  assert (key_error (conversations_seq empty_session) = None) as Hnext by reflexivity.
  assert (forall transcript, Sample.unreachable transcript = inl "connection refused")
    as H2 by reflexivity.
  repeat (split; [assumption|]).
  destruct (chat_with_model_down "You are a helpful todo assistant." Sample.isoformat
              Sample.utcnow Sample.unreachable Sample.json_loads Sample.json_dumps
              (inr tt) 3 empty_session 0 "alice" Sample.hello _ H1 Hfit Hnext eq_refl H2)
    as (conv & s' & E & _ & _ & Ht).
  exists conv, s'. split; [exact E|exact Ht].
Defined.

End RoutesFacts.
